(** * The classifieds board: models, signal receivers and views

    A shallow embedding of [urban_project/board]: the rows of
    [models.py], the receivers of [signals.py] and the views of
    [views.py], over an explicit database state.  Every ORM call of the
    source is a computation in a state-and-exception monad: a [save()]
    is committed before its [post_save] receivers run, a [delete()] runs
    inside one transaction together with its [post_delete] receivers. *)

From stdpp Require Import gmap strings list fin_maps sorting.
From Stdlib Require Import ZArith Lia.

Open Scope Z_scope.

(** ** Rows *)

(** A user is identified by the primary key of its [auth.User] row. *)
Definition User := nat.

Module Advertisement.
(** [models.py], class [Advertisement].  The counters [likes] and
    [dislikes] are read and written by the views and the receivers. *)
Record t := mk {
  title : string;
  content : string;
  author : User;
  created_at : Z;
  image : option string;
  likes : Z;
  dislikes : Z
}.

Definition set_likes (a : t) (n : Z) : t :=
  mk (title a) (content a) (author a) (created_at a) (image a) n (dislikes a).

Definition set_dislikes (a : t) (n : Z) : t :=
  mk (title a) (content a) (author a) (created_at a) (image a) (likes a) n.
End Advertisement.

Module Comment.
(** [models.py], class [Comment]: both foreign keys cascade. *)
Record t := mk {
  advertisement : nat;
  author : User;
  content : string;
  created_at : Z
}.
End Comment.

Module UserProfile.
(** Modelled from the spec: the [UserProfile] model, which
    [signals.py] and [views.py] import from [models.py] but whose
    declaration is not part of the sources: a one-to-one companion of
    a user with three counters, each starting at zero. *)
Record t := mk {
  advertisements_count : Z;
  total_likes : Z;
  total_dislikes : Z
}.

Definition default : t := mk 0 0 0.

Definition set_advertisements_count (p : t) (n : Z) : t :=
  mk n (total_likes p) (total_dislikes p).

Definition set_total_likes (p : t) (n : Z) : t :=
  mk (advertisements_count p) n (total_dislikes p).

Definition set_total_dislikes (p : t) (n : Z) : t :=
  mk (advertisements_count p) (total_likes p) n.
End UserProfile.

(** ** The database *)

(** One table per model, keyed by primary key; the profile table is
    keyed by its user, which the one-to-one field makes unique.  The
    [_seq] fields are the auto-increment sequences. *)
Record DB := mkDB {
  auth_user : gset User;
  auth_user_seq : nat;
  board_advertisement : gmap nat Advertisement.t;
  board_advertisement_seq : nat;
  board_comment : gmap nat Comment.t;
  board_comment_seq : nat;
  board_userprofile : gmap User UserProfile.t
}.

Definition empty_db : DB := mkDB ∅ 1 ∅ 1 ∅ 1 ∅.

Definition with_users (s : DB) (us : gset User) (n : nat) : DB :=
  mkDB us n (board_advertisement s) (board_advertisement_seq s)
       (board_comment s) (board_comment_seq s) (board_userprofile s).

Definition with_advertisements (s : DB) (m : gmap nat Advertisement.t) (n : nat) : DB :=
  mkDB (auth_user s) (auth_user_seq s) m n
       (board_comment s) (board_comment_seq s) (board_userprofile s).

Definition with_comments (s : DB) (m : gmap nat Comment.t) (n : nat) : DB :=
  mkDB (auth_user s) (auth_user_seq s)
       (board_advertisement s) (board_advertisement_seq s) m n (board_userprofile s).

Definition with_profiles (s : DB) (m : gmap User UserProfile.t) : DB :=
  mkDB (auth_user s) (auth_user_seq s)
       (board_advertisement s) (board_advertisement_seq s)
       (board_comment s) (board_comment_seq s) m.

(** ** Exceptions and the ORM monad *)

Inductive exn :=
  | DoesNotExist (model : string)
  | Http404
  | IntegrityError
  | PageNotAnInteger
  | EmptyPage.

(** The outcome of a computation: a value, or an exception, in both
    cases with the database as the computation left it. *)
Inductive outcome (A : Type) :=
  | Done (db : DB) (a : A)
  | Raised (db : DB) (e : exn).
Arguments Done {A} db a.
Arguments Raised {A} db e.

Definition M (A : Type) : Type := DB → outcome A.

Definition ret {A} (a : A) : M A := λ s, Done s a.

Definition bind {A B} (m : M A) (k : A → M B) : M B :=
  λ s, match m s with
       | Done s' a => k a s'
       | Raised s' e => Raised s' e
       end.

Definition raise {A} (e : exn) : M A := λ s, Raised s e.

Definition modify (f : DB → DB) : M unit := λ s, Done (f s) tt.

Definition gets {A} (f : DB → A) : M A := λ s, Done s (f s).

Notation "'do' x <- m ; k" := (bind m (λ x, k))
  (at level 10, x name, m at level 100, k at level 200).
Notation "'do' ' p <- m ; k" := (bind m (λ x, match x with p => k end))
  (at level 10, p pattern, m at level 100, k at level 200).
Notation "m ;; k" := (bind m (λ _, k))
  (at level 100, k at level 200, right associativity).

(** A pure computation that may raise. *)
Definition lift {A} (r : exn + A) : M A :=
  match r with
  | inl e => raise e
  | inr a => ret a
  end.

(** [transaction.atomic]: when the block raises, what it wrote is
    rolled back and the exception goes on. *)
Definition atomic {A} (m : M A) : M A :=
  λ s, match m s with
       | Done s' a => Done s' a
       | Raised _ e => Raised s e
       end.

(** Run the receivers or the steps of a list in order. *)
Fixpoint for_each {A} (f : A → M unit) (l : list A) : M unit :=
  match l with
  | [] => ret tt
  | x :: l' => f x ;; for_each f l'
  end.

(** ** Managers *)

(** [UserProfile.objects.get(user=u)] *)
Definition UserProfile_get (u : User) : M UserProfile.t :=
  do o <- gets (λ s, board_userprofile s !! u);
  match o with
  | Some p => ret p
  | None => raise (DoesNotExist "UserProfile")
  end.

(** [profile.save()] on a profile of user [u] *)
Definition UserProfile_save (u : User) (p : UserProfile.t) : M unit :=
  modify (λ s, with_profiles s (<[u := p]> (board_userprofile s))).

(** [UserProfile.objects.create(user=u)]: the one-to-one field is unique. *)
Definition UserProfile_create (u : User) : M UserProfile.t :=
  do o <- gets (λ s, board_userprofile s !! u);
  match o with
  | Some _ => raise IntegrityError
  | None => UserProfile_save u UserProfile.default ;; ret UserProfile.default
  end.

(** [UserProfile.objects.get_or_create(user=u)] *)
Definition UserProfile_get_or_create (u : User) : M (UserProfile.t * bool) :=
  do o <- gets (λ s, board_userprofile s !! u);
  match o with
  | Some p => ret (p, false)
  | None => do p <- UserProfile_create u; ret (p, true)
  end.

(** [Advertisement.objects.get(pk=pk)] *)
Definition Advertisement_get (pk : nat) : M Advertisement.t :=
  do o <- gets (λ s, board_advertisement s !! pk);
  match o with
  | Some a => ret a
  | None => raise (DoesNotExist "Advertisement")
  end.

(** [get_object_or_404(Advertisement, pk=pk)] *)
Definition get_object_or_404 (pk : nat) : M Advertisement.t :=
  do o <- gets (λ s, board_advertisement s !! pk);
  match o with
  | Some a => ret a
  | None => raise Http404
  end.

(** ** Signal receivers ([signals.py]) *)

Definition update_user_statistics_on_create
    (instance : Advertisement.t) (created : bool) : M unit :=
  if created then
    do '(profile, _) <- UserProfile_get_or_create (Advertisement.author instance);
    UserProfile_save (Advertisement.author instance)
      (UserProfile.set_advertisements_count profile
         (UserProfile.advertisements_count profile + 1))
  else ret tt.

Definition update_user_statistics_on_delete (instance : Advertisement.t) : M unit :=
  do profile <- UserProfile_get (Advertisement.author instance);
  UserProfile_save (Advertisement.author instance)
    (UserProfile.set_advertisements_count profile
       (UserProfile.advertisements_count profile - 1)).

Definition update_user_statistics_on_like
    (instance : Advertisement.t) (created : bool) : M unit :=
  if bool_decide (Advertisement.likes instance > 0) then
    do profile <- UserProfile_get (Advertisement.author instance);
    UserProfile_save (Advertisement.author instance)
      (UserProfile.set_total_likes profile (UserProfile.total_likes profile + 1))
  else ret tt.

Definition update_user_statistics_on_dislike
    (instance : Advertisement.t) (created : bool) : M unit :=
  if bool_decide (Advertisement.dislikes instance > 0) then
    do profile <- UserProfile_get (Advertisement.author instance);
    UserProfile_save (Advertisement.author instance)
      (UserProfile.set_total_dislikes profile (UserProfile.total_dislikes profile + 1))
  else ret tt.

(** The receivers connected to [post_save] and [post_delete] with
    [sender=Advertisement], in the order the module connects them. *)
Definition post_save_receivers : list (Advertisement.t → bool → M unit) :=
  [ update_user_statistics_on_create;
    update_user_statistics_on_like;
    update_user_statistics_on_dislike ].

Definition post_delete_receivers : list (Advertisement.t → M unit) :=
  [ update_user_statistics_on_delete ].

(** [Signal.send]: every receiver is called in turn, and an exception
    of a receiver is not caught. *)
Definition post_save_send (instance : Advertisement.t) (created : bool) : M unit :=
  for_each (λ r, r instance created) post_save_receivers.

Definition post_delete_send (instance : Advertisement.t) : M unit :=
  for_each (λ r, r instance) post_delete_receivers.

(** ** Saving and deleting rows *)

(** [instance.save()] on an [Advertisement].  An instance that was
    fetched has its primary key and is updated ([created] is false); an
    instance without a row is inserted, under the next value of the
    sequence when it has no primary key yet.  The row is committed
    before [post_save] is sent, so an exception of a receiver does not
    undo it. *)
Definition Advertisement_save (pk : option nat) (instance : Advertisement.t) : M nat :=
  do s <- gets id;
  let k := default (board_advertisement_seq s) pk in
  let created := bool_decide (board_advertisement s !! k = None) in
  (if bool_decide (pk = None) && negb created then raise IntegrityError else ret tt) ;;
  modify (λ s, with_advertisements s (<[k := instance]> (board_advertisement s))
                 (if created then Nat.max (board_advertisement_seq s) (S k)
                  else board_advertisement_seq s)) ;;
  post_save_send instance created ;;
  ret k.

(** [instance.delete()] on the [Advertisement] of key [pk]: in one
    transaction the comments on it go first (cascade of
    [Comment.advertisement]), then the row, then [post_delete] is sent. *)
Definition Advertisement_delete (pk : nat) (instance : Advertisement.t) : M unit :=
  atomic (
    modify (λ s, with_comments s
                   (filter (λ kc, Comment.advertisement kc.2 ≠ pk) (board_comment s))
                   (board_comment_seq s)) ;;
    modify (λ s, with_advertisements s (delete pk (board_advertisement s))
                   (board_advertisement_seq s)) ;;
    post_delete_send instance).

(** [Comment.objects.create(...)]: the two foreign keys must reference
    rows that exist. *)
Definition Comment_create (c : Comment.t) : M nat :=
  do s <- gets id;
  if bool_decide (is_Some (board_advertisement s !! Comment.advertisement c)
                  ∧ Comment.author c ∈ auth_user s) then
    modify (λ s, with_comments s (<[board_comment_seq s := c]> (board_comment s))
                   (S (board_comment_seq s))) ;;
    ret (board_comment_seq s)
  else raise IntegrityError.

(** The advertisements of a user, as the deletion collector gathers them. *)
Definition advertisements_of (u : User) (s : DB) : gmap nat Advertisement.t :=
  filter (λ ka, Advertisement.author ka.2 = u) (board_advertisement s).

(** [user.delete()].  The cascade of [Advertisement.author],
    [Comment.author] and [Comment.advertisement] removes, in one
    transaction, the comments of the user and the comments on the
    user's advertisements, then those advertisements, sending
    [post_delete] for each of them, and at last the user.  The profile
    row goes with its user; [UserProfile] is not part of the sources, so
    whether the row is already gone when the [post_delete] receivers
    run is the parameter [profile_first].  It is [true] in a run of the
    framework on the model as the spec describes it: rows of a model
    without receivers, such as the profiles and the comments, are
    deleted in bulk before the rows of a model that has receivers. *)
Definition User_delete (profile_first : bool) (u : User) : M unit :=
  atomic (
    do doomed <- gets (advertisements_of u);
    modify (λ s, with_comments s
                   (filter (λ kc, Comment.author kc.2 ≠ u
                                  ∧ doomed !! Comment.advertisement kc.2 = None)
                           (board_comment s))
                   (board_comment_seq s)) ;;
    (if profile_first
     then modify (λ s, with_profiles s (delete u (board_userprofile s)))
     else ret tt) ;;
    modify (λ s, with_advertisements s
                   (filter (λ ka, Advertisement.author ka.2 ≠ u) (board_advertisement s))
                   (board_advertisement_seq s)) ;;
    for_each (λ ka, post_delete_send ka.2) (map_to_list doomed) ;;
    (if profile_first
     then ret tt
     else modify (λ s, with_profiles s (delete u (board_userprofile s)))) ;;
    modify (λ s, with_users s (auth_user s ∖ {[u]}) (auth_user_seq s))).

(** [form.save()] of the sign-up form: a new user under the next key. *)
Definition User_create : M User :=
  do s <- gets id;
  modify (λ s, with_users s ({[auth_user_seq s]} ∪ auth_user s) (S (auth_user_seq s))) ;;
  ret (auth_user_seq s).

(** ** Requests and responses *)

Module AdvertisementForm.
(** Modelled from the spec: [AdvertisementForm] of [board/forms.py],
    which is not part of the sources: a model form over the fields of
    an advertisement that a user fills in.  A record holds the cleaned
    data of a form that validated. *)
Record t := mk {
  title : string;
  content : string;
  image : option string
}.
End AdvertisementForm.

(** What a view reads from its request: the method, the user that the
    authentication middleware attached ([None] is the anonymous user),
    the [page] parameter of the query string as an integer when it is
    one, and the clock.  The forms are bound to the POST data by the
    views; the request carries what validation yields: the cleaned data
    of [AdvertisementForm], or [None] when [is_valid()] is false, and
    the verdict of [SignUpForm]. *)
Record HttpRequest := mkRequest {
  method : string;
  user : option User;
  GET_page : option Z;
  POST_AdvertisementForm : option AdvertisementForm.t;
  POST_SignUpForm : bool;
  now : Z
}.

Inductive url :=
  | url_home
  | url_board
  | url_login
  | url_advertisement_list
  | url_advertisement_detail (pk : nat).

Inductive context :=
  | ctx_none
  | ctx_form
  | ctx_page_obj (page_obj : list (nat * Advertisement.t))
  | ctx_advertisement (pk : nat) (advertisement : Advertisement.t)
  | ctx_form_advertisement (pk : nat) (advertisement : Advertisement.t)
  | ctx_bound_form_advertisement (pk : nat).

Inductive HttpResponse :=
  | render (template : string) (ctx : context)
  | redirect (to : url)
  | not_found
  | server_error (e : exn).

(** The request handler around a view: [Http404] becomes the not-found
    response, any other exception the server-error response; what the
    view committed before the exception stays. *)
Definition respond (view : M HttpResponse) (s : DB) : DB * HttpResponse :=
  match view s with
  | Done s' r => (s', r)
  | Raised s' Http404 => (s', not_found)
  | Raised s' e => (s', server_error e)
  end.

(** [@login_required] *)
(** [@login_required]: an anonymous request is sent to the login page
    and the view is not called; otherwise the view runs, and finds the
    authenticated user in [request.user]. *)
Definition login_required
    (view : User → HttpRequest → M HttpResponse) (request : HttpRequest) : M HttpResponse :=
  match user request with
  | Some u => view u request
  | None => ret (redirect url_login)
  end.

(** ** The paginator of the framework *)

(** A slice [l[i:j]] of Python: a negative index counts from the end,
    and both are clipped to the list. *)
Definition slice {A} (l : list A) (i j : Z) : list A :=
  let n := Z.of_nat (length l) in
  let clip x := if x <? 0 then Z.max 0 (x + n) else Z.min x n in
  take (Z.to_nat (clip j - clip i)) (drop (Z.to_nat (clip i)) l).

Module Paginator.
Record t (A : Type) := mk {
  object_list : list A;
  per_page : Z;
  orphans : Z;
  allow_empty_first_page : bool
}.
Arguments mk {A}.
Arguments object_list {A}.
Arguments per_page {A}.
Arguments orphans {A}.
Arguments allow_empty_first_page {A}.

Record Page (A : Type) := mkPage {
  page_object_list : list A;
  number : Z
}.
Arguments mkPage {A}.
Arguments page_object_list {A}.
Arguments number {A}.

Section Paginator.
Context {A : Type}.
Implicit Type p : t A.

Definition count p : Z := Z.of_nat (length (object_list p)).

(** [ceil(hits / per_page)], on integers. *)
Definition num_pages p : Z :=
  if (count p =? 0) && negb (allow_empty_first_page p) then 0
  else
    let hits := Z.max 1 (count p - orphans p) in
    - ((- hits) / per_page p).

(** [number] is [None] when [int(number)] raises. *)
Definition validate_number p (number : option Z) : exn + Z :=
  match number with
  | None => inl PageNotAnInteger
  | Some n =>
      if n <? 1 then inl EmptyPage
      else if n >? num_pages p then inl EmptyPage
      else inr n
  end.

Definition page p (number : Z) : exn + Page A :=
  match validate_number p (Some number) with
  | inl e => inl e
  | inr number =>
      let bottom := (number - 1) * per_page p in
      let top := bottom + per_page p in
      let top := if top + orphans p >=? count p then count p else top in
      inr (mkPage (slice (object_list p) bottom top) number)
  end.

Definition get_page p (number : option Z) : exn + Page A :=
  let number :=
    match validate_number p number with
    | inr n => n
    | inl EmptyPage => num_pages p
    | inl _ => 1
    end in
  page p number.
End Paginator.
End Paginator.

(** ** The rows of a table, in order *)

(** [Advertisement.objects.all()]: the model declares no ordering, and
    the database returns the rows by primary key. *)
Definition by_pk (a b : nat * Advertisement.t) : Prop := (a.1 ≤ b.1)%nat.

#[global] Instance by_pk_dec : RelDecision by_pk := λ a b, decide (a.1 ≤ b.1)%nat.

Definition Advertisement_all (s : DB) : list (nat * Advertisement.t) :=
  merge_sort by_pk (map_to_list (board_advertisement s)).

(** ** Views ([views.py]) *)

Definition is_POST (request : HttpRequest) : bool := String.eqb (method request) "POST".

(** [logout(request)] and [login(request, user)] write the session
    store only.  The session table is not one of the tables of [DB]:
    nothing below says what these calls do to it. *)
Definition logout_view (request : HttpRequest) : M HttpResponse :=
  ret (redirect url_home).

Definition signup (request : HttpRequest) : M HttpResponse :=
  if is_POST request then
    if POST_SignUpForm request then
      do user <- User_create;
      UserProfile_create user ;;
      ret (redirect url_board)
    else ret (render "signup.html" ctx_form)
  else ret (render "signup.html" ctx_form).

Definition home (request : HttpRequest) : M HttpResponse :=
  ret (render "home.html" ctx_none).

Definition advertisement_list (request : HttpRequest) : M HttpResponse :=
  do advertisements <- gets Advertisement_all;
  let paginator := Paginator.mk advertisements 5 0 true in
  let page_number := GET_page request in
  do page_obj <- lift (Paginator.get_page paginator page_number);
  ret (render "board/advertisement_list.html"
         (ctx_page_obj (Paginator.page_object_list page_obj))).

Definition advertisement_detail (request : HttpRequest) (pk : nat) : M HttpResponse :=
  do advertisement <- Advertisement_get pk;
  ret (render "board/advertisement_detail.html" (ctx_advertisement pk advertisement)).

(** [form.save(commit=False)] of an unbound instance: the fields of the
    form, the counters at their default, the creation time at the
    clock; the view assigns the author. *)
Definition new_advertisement (form : AdvertisementForm.t) (u : User) (now : Z)
    : Advertisement.t :=
  Advertisement.mk (AdvertisementForm.title form) (AdvertisementForm.content form)
    u now (AdvertisementForm.image form) 0 0.

(** The fields of the form written into [instance]. *)
Definition construct_instance (form : AdvertisementForm.t) (instance : Advertisement.t)
    : Advertisement.t :=
  Advertisement.mk (AdvertisementForm.title form) (AdvertisementForm.content form)
    (Advertisement.author instance) (Advertisement.created_at instance)
    (AdvertisementForm.image form)
    (Advertisement.likes instance) (Advertisement.dislikes instance).

Definition add_advertisement : HttpRequest → M HttpResponse :=
  login_required (λ request_user request,
    if is_POST request then
      match POST_AdvertisementForm request with
      | Some form =>
          let advertisement := new_advertisement form request_user (now request) in
          Advertisement_save None advertisement ;;
          ret (redirect url_advertisement_list)
      | None => ret (render "board/add_advertisement.html" ctx_form)
      end
    else ret (render "board/add_advertisement.html" ctx_form)).

(** On a POST whose form is not valid nothing is saved, but validation
    has already written the fields that passed into the instance that
    the template receives: the context then names the advertisement by
    its key only, since a request does not say which fields passed. *)
Definition edit_advertisement (request : HttpRequest) (pk : nat) : M HttpResponse :=
  login_required (λ request_user request,
    do advertisement <- get_object_or_404 pk;
    if bool_decide (Advertisement.author advertisement ≠ request_user) then
      ret (redirect url_advertisement_list)
    else if is_POST request then
      match POST_AdvertisementForm request with
      | Some form =>
          Advertisement_save (Some pk) (construct_instance form advertisement) ;;
          ret (redirect (url_advertisement_detail pk))
      | None =>
          ret (render "board/edit_advertisement.html"
                 (ctx_bound_form_advertisement pk))
      end
    else
      ret (render "board/edit_advertisement.html"
             (ctx_form_advertisement pk advertisement))) request.

Definition delete_advertisement (request : HttpRequest) (pk : nat) : M HttpResponse :=
  login_required (λ request_user request,
    do advertisement <- get_object_or_404 pk;
    if bool_decide (Advertisement.author advertisement ≠ request_user) then
      ret (redirect url_advertisement_list)
    else if is_POST request then
      Advertisement_delete pk advertisement ;;
      ret (redirect url_advertisement_list)
    else
      ret (render "board/delete_advertisement_confirm.html"
             (ctx_advertisement pk advertisement))) request.

Definition like_advertisement (request : HttpRequest) (pk : nat) : M HttpResponse :=
  login_required (λ _ request,
    do advertisement <- get_object_or_404 pk;
    let advertisement :=
      Advertisement.set_likes advertisement (Advertisement.likes advertisement + 1) in
    Advertisement_save (Some pk) advertisement ;;
    do profile <- UserProfile_get (Advertisement.author advertisement);
    UserProfile_save (Advertisement.author advertisement)
      (UserProfile.set_total_likes profile (UserProfile.total_likes profile + 1)) ;;
    ret (redirect (url_advertisement_detail pk))) request.

Definition dislike_advertisement (request : HttpRequest) (pk : nat) : M HttpResponse :=
  login_required (λ _ request,
    do advertisement <- get_object_or_404 pk;
    let advertisement :=
      Advertisement.set_dislikes advertisement (Advertisement.dislikes advertisement + 1) in
    Advertisement_save (Some pk) advertisement ;;
    do profile <- UserProfile_get (Advertisement.author advertisement);
    UserProfile_save (Advertisement.author advertisement)
      (UserProfile.set_total_dislikes profile (UserProfile.total_dislikes profile + 1)) ;;
    ret (redirect (url_advertisement_detail pk))) request.

(** The routes of the board, and the response to a request on one. *)
Inductive route :=
  | route_home
  | route_signup
  | route_logout
  | route_advertisement_list
  | route_advertisement_detail (pk : nat)
  | route_add_advertisement
  | route_edit_advertisement (pk : nat)
  | route_delete_advertisement (pk : nat)
  | route_like_advertisement (pk : nat)
  | route_dislike_advertisement (pk : nat).

Definition view_of (r : route) (request : HttpRequest) : M HttpResponse :=
  match r with
  | route_home => home request
  | route_signup => signup request
  | route_logout => logout_view request
  | route_advertisement_list => advertisement_list request
  | route_advertisement_detail pk => advertisement_detail request pk
  | route_add_advertisement => add_advertisement request
  | route_edit_advertisement pk => edit_advertisement request pk
  | route_delete_advertisement pk => delete_advertisement request pk
  | route_like_advertisement pk => like_advertisement request pk
  | route_dislike_advertisement pk => dislike_advertisement request pk
  end.

Definition handle (r : route) (request : HttpRequest) (s : DB) : DB * HttpResponse :=
  respond (view_of r request) s.

(** ** The outcome of a save and of a user deletion *)

(** The profile of the author after the three [post_save] receivers. *)
Definition profile_after_save
    (instance : Advertisement.t) (created : bool) (p : UserProfile.t) : UserProfile.t :=
  UserProfile.mk
    (UserProfile.advertisements_count p + (if created then 1 else 0))
    (UserProfile.total_likes p
     + (if bool_decide (Advertisement.likes instance > 0) then 1 else 0))
    (UserProfile.total_dislikes p
     + (if bool_decide (Advertisement.dislikes instance > 0) then 1 else 0)).

(** The database after a user deletion that went through. *)
Definition without_user (u : User) (s : DB) : DB :=
  mkDB (auth_user s ∖ {[u]}) (auth_user_seq s)
    (filter (λ ka, Advertisement.author ka.2 ≠ u) (board_advertisement s))
    (board_advertisement_seq s)
    (filter (λ kc, Comment.author kc.2 ≠ u
                   ∧ advertisements_of u s !! Comment.advertisement kc.2 = None)
            (board_comment s))
    (board_comment_seq s)
    (delete u (board_userprofile s)).

(** ** Reachable states *)

(** What can happen to the database: a request on a route, and, through
    the ORM (no view of [views.py] does either), the creation of a
    comment and the deletion of a user. *)
Inductive action :=
  | act_request (r : route) (request : HttpRequest)
  | act_comment (c : Comment.t)
  | act_user_delete (profile_first : bool) (u : User).

Definition db_of {A} (o : outcome A) : DB :=
  match o with
  | Done s _ => s
  | Raised s _ => s
  end.

Definition run (a : action) (s : DB) : DB :=
  match a with
  | act_request r request => (handle r request s).1
  | act_comment c => db_of (Comment_create c s)
  | act_user_delete profile_first u => db_of (User_delete profile_first u s)
  end.

(** The authentication middleware attaches a user that exists, and only
    a user that exists can be deleted. *)
Definition allowed (a : action) (s : DB) : Prop :=
  match a with
  | act_request _ request => ∀ u, user request = Some u → u ∈ auth_user s
  | act_comment _ => True
  | act_user_delete _ u => u ∈ auth_user s
  end.

Inductive reachable : DB → Prop :=
  | reachable_empty : reachable empty_db
  | reachable_run a s : reachable s → allowed a s → reachable (run a s).

Definition run_all (l : list action) (s : DB) : DB := foldl (λ s a, run a s) s l.

(** ** Consistency of a database *)

(** What every reachable database satisfies: the sequences are ahead of
    the keys in use, an advertisement has a live author whose profile
    exists, its counters are not negative, and a comment references an
    advertisement and a user that exist. *)
Record consistent (s : DB) : Prop := mk_consistent {
  sequence_ahead :
    ∀ pk, is_Some (board_advertisement s !! pk) → (pk < board_advertisement_seq s)%nat;
  users_behind :
    ∀ u, u ∈ auth_user s → (u < auth_user_seq s)%nat;
  authors_live :
    ∀ pk ad, board_advertisement s !! pk = Some ad →
             Advertisement.author ad ∈ auth_user s;
  authors_have_profiles :
    ∀ pk ad, board_advertisement s !! pk = Some ad →
             is_Some (board_userprofile s !! Advertisement.author ad);
  counters_not_negative :
    ∀ pk ad, board_advertisement s !! pk = Some ad →
             0 ≤ Advertisement.likes ad ∧ 0 ≤ Advertisement.dislikes ad;
  comments_reference_rows :
    ∀ k c, board_comment s !! k = Some c →
           is_Some (board_advertisement s !! Comment.advertisement c)
           ∧ Comment.author c ∈ auth_user s
}.

(** ** Statistics *)

(** The sum of a counter over the advertisements of a user. *)
Definition sum_over (f : Advertisement.t → Z) (u : User) (s : DB) : Z :=
  map_fold (λ _ ad acc, f ad + acc) 0 (advertisements_of u s).

(** The profile counters agree with the advertisement rows. *)
Definition statistics_match (s : DB) : Prop :=
  ∀ u p, board_userprofile s !! u = Some p →
    UserProfile.advertisements_count p = Z.of_nat (size (advertisements_of u s))
    ∧ UserProfile.total_likes p = sum_over Advertisement.likes u s
    ∧ UserProfile.total_dislikes p = sum_over Advertisement.dislikes u s.

(** The part of it that the receivers do keep: the number of
    advertisements. *)
Definition counts_match (s : DB) : Prop :=
  ∀ u p, board_userprofile s !! u = Some p →
    UserProfile.advertisements_count p = Z.of_nat (size (advertisements_of u s)).

(** ** What a step may touch *)

(** Two databases that differ at most in the profile table. *)
Definition profiles_only (s s' : DB) : Prop :=
  ∃ m, s' = with_profiles s m.

(** Every profile belongs to a user that exists. *)
Definition profiles_of_users (s : DB) : Prop :=
  ∀ u, is_Some (board_userprofile s !! u) → u ∈ auth_user s.

(** The database after the like requests of a list, one after the
    other, on the advertisement [pk]. *)
Definition like_all (pk : nat) (requests : list HttpRequest) (s : DB) : DB :=
  foldl (λ s request, (handle (route_like_advertisement pk) request s).1) s requests.

(** Every like and every dislike of an advertisement that is still
    there is counted at least twice in the profile of its author. *)
Definition totals_cover (s : DB) : Prop :=
  ∀ u p, board_userprofile s !! u = Some p →
    2 * sum_over Advertisement.likes u s ≤ UserProfile.total_likes p
    ∧ 2 * sum_over Advertisement.dislikes u s ≤ UserProfile.total_dislikes p.

(** ** Examples of states *)

Definition bike : AdvertisementForm.t := AdvertisementForm.mk "Bike" "Almost new" None.

Definition POST (u : option User) : HttpRequest :=
  mkRequest "POST" u None (Some bike) true 10.

Definition GET (u : option User) : HttpRequest :=
  mkRequest "GET" u None None false 10.

(** Two users sign up and the first posts an advertisement. *)
Definition two_users_one_advertisement : DB :=
  run_all [ act_request route_signup (POST None);
            act_request route_signup (POST None);
            act_request route_add_advertisement (POST (Some 1%nat)) ] empty_db.

(** One user with seven advertisements: two pages of the list. *)
Definition seven_advertisements : DB :=
  run_all (act_request route_signup (POST None)
           :: replicate 7 (act_request route_add_advertisement (POST (Some 1%nat))))
    empty_db.

(** An advertisement whose author has no profile row. *)
Definition orphan_advertisement : DB :=
  mkDB {[1%nat]} 2
    {[1%nat := Advertisement.mk "Bike" "Almost new" 1%nat 10 None 0 0]} 2 ∅ 1 ∅.

(** A user signs up, posts an advertisement and likes it. *)
Definition liked_once_actions : list action :=
  [ act_request route_signup (POST None);
    act_request route_add_advertisement (POST (Some 1%nat));
    act_request (route_like_advertisement 1) (GET (Some 1%nat)) ].

Definition liked_once : DB := run_all liked_once_actions empty_db.

(** Two users; the first has an advertisement, on which the second
    left a comment. *)
Definition commented : DB :=
  run (act_comment (Comment.mk 1 2%nat "Still for sale?" 12)) two_users_one_advertisement.

(** ** Tactics for running the monad *)

Ltac unfold_views :=
  unfold handle, respond, view_of, logout_view, home, signup, advertisement_list,
    advertisement_detail, add_advertisement, edit_advertisement, delete_advertisement,
    like_advertisement, dislike_advertisement, login_required in *.

Ltac unfold_orm :=
  unfold Advertisement_save, Advertisement_delete, Advertisement_get, get_object_or_404,
    UserProfile_get, UserProfile_save, UserProfile_create, UserProfile_get_or_create,
    post_save_send, post_delete_send, post_save_receivers, post_delete_receivers,
    update_user_statistics_on_create, update_user_statistics_on_delete,
    update_user_statistics_on_like, update_user_statistics_on_dislike in *.

Ltac unfold_monad :=
  unfold atomic, lift, bind, ret, raise, gets, modify in *; cbn [for_each] in *;
  unfold bind, ret, raise, gets, modify in *.

Ltac run_monad :=
  unfold_views; repeat (progress (unfold_orm; unfold_monad; cbn in *)).

(** ** Access control *)

(** C7: an anonymous request to add, edit, delete, like or dislike is
    answered by a redirect to the login page and leaves the database as
    it was. *)
Theorem anonymous_redirected_to_login (s : DB) (request : HttpRequest) (pk : nat) :
  user request = None →
  handle route_add_advertisement request s = (s, redirect url_login)
  ∧ handle (route_edit_advertisement pk) request s = (s, redirect url_login)
  ∧ handle (route_delete_advertisement pk) request s = (s, redirect url_login)
  ∧ handle (route_like_advertisement pk) request s = (s, redirect url_login)
  ∧ handle (route_dislike_advertisement pk) request s = (s, redirect url_login).
Proof.
  intros Hanon. unfold_views. rewrite Hanon. by repeat split.
Qed.

Lemma anonymous_redirected_to_login_witness :
  let request := mkRequest "POST" None None None false 0 in
  handle route_add_advertisement request empty_db = (empty_db, redirect url_login)
  ∧ handle (route_like_advertisement 3) request empty_db = (empty_db, redirect url_login).
Proof.
  intros request.
  pose proof (anonymous_redirected_to_login empty_db request 3 eq_refl) as H.
  split; [apply H | apply H].
Defined.

(** C4: an authenticated request to edit or to delete an advertisement
    of another user is answered by a redirect to the list, and the
    database, every table of it, is what it was. *)
Theorem not_author_redirected_unchanged
    (s : DB) (request : HttpRequest) (pk : nat) (u : User) (ad : Advertisement.t) :
  user request = Some u →
  board_advertisement s !! pk = Some ad →
  Advertisement.author ad ≠ u →
  handle (route_edit_advertisement pk) request s = (s, redirect url_advertisement_list)
  ∧ handle (route_delete_advertisement pk) request s = (s, redirect url_advertisement_list).
Proof.
  intros Hu Had Hne. unfold_views. rewrite Hu.
  unfold get_object_or_404. unfold_monad. rewrite Had. cbn.
  by rewrite bool_decide_eq_true_2 by done.
Qed.

(** ** What the receivers do to a profile *)

Lemma with_profiles_id (s : DB) : with_profiles s (board_userprofile s) = s.
Proof. by destruct s. Qed.

Lemma with_profiles_twice (s : DB) m1 m2 :
  with_profiles (with_profiles s m1) m2 = with_profiles s m2.
Proof. by destruct s. Qed.

Lemma profile_eta (p : UserProfile.t) :
  UserProfile.mk (UserProfile.advertisements_count p) (UserProfile.total_likes p)
    (UserProfile.total_dislikes p) = p.
Proof. by destruct p. Qed.

(** When the author has a profile, or the row was just created, the
    receivers do not raise, and the profile of the author becomes
    [profile_after_save]. *)
Lemma post_save_send_profile (s : DB) (instance : Advertisement.t) (created : bool) :
  created = true ∨ is_Some (board_userprofile s !! Advertisement.author instance) →
  post_save_send instance created s =
    Done (with_profiles s
            (<[Advertisement.author instance :=
                 profile_after_save instance created
                   (default UserProfile.default
                      (board_userprofile s !! Advertisement.author instance))]>
               (board_userprofile s))) tt.
Proof.
  intros Hp. unfold profile_after_save. run_monad.
  destruct (board_userprofile s !! Advertisement.author instance) as [p|] eqn:Hlook;
    destruct created; try (destruct Hp as [?|[? ?]]; discriminate); cbn;
    repeat case_bool_decide; cbn;
    repeat (rewrite ?lookup_insert_eq, ?Hlook; cbn);
    rewrite ?with_profiles_twice, ?insert_insert_eq;
    unfold UserProfile.set_total_likes, UserProfile.set_total_dislikes,
      UserProfile.set_advertisements_count; cbn;
    rewrite ?Z.add_0_r, ?profile_eta; try done.
  all: by rewrite insert_id, with_profiles_id.
Qed.

(** Without a profile, on a row that was not created, the first
    receiver that reads the profile raises. *)
Lemma post_save_send_no_profile (s : DB) (instance : Advertisement.t) :
  board_userprofile s !! Advertisement.author instance = None →
  post_save_send instance false s =
    if bool_decide (Advertisement.likes instance > 0)
       || bool_decide (Advertisement.dislikes instance > 0)
    then Raised s (DoesNotExist "UserProfile")
    else Done s tt.
Proof.
  intros Hlook. run_monad. repeat case_bool_decide; cbn; rewrite ?Hlook; done.
Qed.

Lemma post_delete_send_profile (s : DB) (instance : Advertisement.t) :
  post_delete_send instance s =
    match board_userprofile s !! Advertisement.author instance with
    | Some p =>
        Done (with_profiles s
                (<[Advertisement.author instance :=
                     UserProfile.set_advertisements_count p
                       (UserProfile.advertisements_count p - 1)]>
                   (board_userprofile s))) tt
    | None => Raised s (DoesNotExist "UserProfile")
    end.
Proof.
  run_monad. by destruct (board_userprofile s !! Advertisement.author instance).
Qed.

(** ** Saving and deleting, in one equation each *)

#[local] Arguments post_save_send : simpl never.
#[local] Arguments post_delete_send : simpl never.

Lemma Advertisement_save_update
    (s : DB) (pk : nat) (old instance : Advertisement.t) :
  board_advertisement s !! pk = Some old →
  Advertisement_save (Some pk) instance s =
    match post_save_send instance false
            (with_advertisements s (<[pk := instance]> (board_advertisement s))
               (board_advertisement_seq s)) with
    | Done s' _ => Done s' pk
    | Raised s' e => Raised s' e
    end.
Proof.
  intros Hold. unfold Advertisement_save. unfold_monad. cbn. rewrite Hold.
  rewrite bool_decide_eq_false_2 by done. cbn.
  by destruct (post_save_send instance false _).
Qed.

Lemma Advertisement_save_insert (s : DB) (instance : Advertisement.t) :
  board_advertisement s !! board_advertisement_seq s = None →
  Advertisement_save None instance s =
    Done (with_profiles
            (with_advertisements s
               (<[board_advertisement_seq s := instance]> (board_advertisement s))
               (S (board_advertisement_seq s)))
            (<[Advertisement.author instance :=
                 profile_after_save instance true
                   (default UserProfile.default
                      (board_userprofile s !! Advertisement.author instance))]>
               (board_userprofile s)))
         (board_advertisement_seq s).
Proof.
  intros Hfresh. unfold Advertisement_save. unfold_monad. cbn. rewrite Hfresh.
  rewrite bool_decide_eq_true_2 by done. cbn.
  rewrite post_save_send_profile by (by left). cbn.
  by replace (board_advertisement_seq s `max` S (board_advertisement_seq s))%nat
    with (S (board_advertisement_seq s)) by lia.
Qed.

Lemma Advertisement_save_clash (s : DB) (instance : Advertisement.t) :
  board_advertisement s !! board_advertisement_seq s ≠ None →
  Advertisement_save None instance s = Raised s IntegrityError.
Proof.
  intros Hclash. unfold Advertisement_save. unfold_monad. cbn.
  by rewrite bool_decide_eq_false_2 by done.
Qed.

Lemma Advertisement_delete_eq (s : DB) (pk : nat) (instance : Advertisement.t) :
  Advertisement_delete pk instance s =
    match board_userprofile s !! Advertisement.author instance with
    | Some p =>
        Done (mkDB (auth_user s) (auth_user_seq s)
                (delete pk (board_advertisement s)) (board_advertisement_seq s)
                (filter (λ kc, Comment.advertisement kc.2 ≠ pk) (board_comment s))
                (board_comment_seq s)
                (<[Advertisement.author instance :=
                     UserProfile.set_advertisements_count p
                       (UserProfile.advertisements_count p - 1)]>
                   (board_userprofile s))) tt
    | None => Raised s (DoesNotExist "UserProfile")
    end.
Proof.
  unfold Advertisement_delete, atomic, bind at 1 2, modify.
  rewrite post_delete_send_profile. cbn.
  by destruct (board_userprofile s !! Advertisement.author instance).
Qed.

Lemma not_author_redirected_unchanged_witness :
  handle (route_edit_advertisement 1) (POST (Some 2%nat)) two_users_one_advertisement
    = (two_users_one_advertisement, redirect url_advertisement_list)
  ∧ handle (route_delete_advertisement 1) (POST (Some 2%nat)) two_users_one_advertisement
    = (two_users_one_advertisement, redirect url_advertisement_list).
Proof.
  apply (not_author_redirected_unchanged two_users_one_advertisement
           (POST (Some 2%nat)) 1 2%nat
           (Advertisement.mk "Bike" "Almost new" 1%nat 10 None 0 0)).
  - reflexivity.
  - vm_compute. reflexivity.
  - vm_compute. discriminate.
Defined.

(** ** Missing rows *)

(** C10: saving a new advertisement never raises for a missing profile:
    whatever the receivers find, they end normally and the author has a
    profile afterwards, so that the only exception of a creating
    [save()] is a clash of primary keys; deleting an advertisement
    whose author has no profile raises [UserProfile.DoesNotExist], in
    the receiver and, uncaught, in the view. *)
Theorem create_finds_or_makes_profile_delete_requires_it :
  (∀ s instance, ∃ s',
      post_save_send instance true s = Done s' tt
      ∧ is_Some (board_userprofile s' !! Advertisement.author instance))
  ∧ (∀ s instance,
      board_advertisement s !! board_advertisement_seq s = None →
      ∃ s', Advertisement_save None instance s = Done s' (board_advertisement_seq s)
            ∧ board_advertisement s' !! board_advertisement_seq s = Some instance)
  ∧ (∀ s instance s' e,
      Advertisement_save None instance s = Raised s' e → e = IntegrityError)
  ∧ (∀ s pk instance,
      board_userprofile s !! Advertisement.author instance = None →
      update_user_statistics_on_delete instance s = Raised s (DoesNotExist "UserProfile")
      ∧ Advertisement_delete pk instance s = Raised s (DoesNotExist "UserProfile"))
  ∧ (∀ s request pk instance,
      user request = Some (Advertisement.author instance) →
      is_POST request = true →
      board_advertisement s !! pk = Some instance →
      board_userprofile s !! Advertisement.author instance = None →
      handle (route_delete_advertisement pk) request s
        = (s, server_error (DoesNotExist "UserProfile"))).
Proof.
  split_and!.
  - intros s instance. eexists. split.
    + apply post_save_send_profile. by left.
    + cbn. rewrite lookup_insert_eq. eauto.
  - intros s instance Hfresh. eexists. split.
    + by apply Advertisement_save_insert.
    + cbn. by rewrite lookup_insert_eq.
  - intros s instance s' e.
    destruct (board_advertisement s !! board_advertisement_seq s) eqn:Hseq.
    + rewrite Advertisement_save_clash by (by rewrite Hseq). congruence.
    + by rewrite Advertisement_save_insert.
  - intros s pk instance Hnone. split.
    + run_monad. by rewrite Hnone.
    + by rewrite Advertisement_delete_eq, Hnone.
  - intros s request pk instance Hu Hpost Had Hnone.
    unfold handle, respond, view_of, delete_advertisement, login_required.
    rewrite Hu. unfold bind at 1, get_object_or_404, bind at 1, gets. rewrite Had. cbn.
    rewrite bool_decide_eq_false_2 by (intros H; by apply H).
    rewrite Hpost. unfold bind. by rewrite Advertisement_delete_eq, Hnone.
Qed.

Lemma create_finds_or_makes_profile_delete_requires_it_witness :
  (∃ s', Advertisement_save None
           (Advertisement.mk "Skis" "Two pairs" 1%nat 11 None 0 0) orphan_advertisement
         = Done s' 2%nat)
  ∧ handle (route_delete_advertisement 1) (POST (Some 1%nat)) orphan_advertisement
    = (orphan_advertisement, server_error (DoesNotExist "UserProfile")).
Proof.
  destruct create_finds_or_makes_profile_delete_requires_it
    as (_ & Hsave & _ & _ & Hview).
  split.
  - destruct (Hsave orphan_advertisement
                (Advertisement.mk "Skis" "Two pairs" 1%nat 11 None 0 0)) as [s' [Hs' _]].
    + vm_compute. reflexivity.
    + exists s'. exact Hs'.
  - apply (Hview orphan_advertisement (POST (Some 1%nat)) 1%nat
             (Advertisement.mk "Bike" "Almost new" 1%nat 10 None 0 0)).
    + reflexivity.
    + reflexivity.
    + vm_compute. reflexivity.
    + vm_compute. reflexivity.
Defined.

(** ** The views, in one equation each *)

Lemma handle_like_advertisement_eq
    (s : DB) (request : HttpRequest) (u : User) (pk : nat)
    (ad : Advertisement.t) (p : UserProfile.t) :
  user request = Some u →
  board_advertisement s !! pk = Some ad →
  board_userprofile s !! Advertisement.author ad = Some p →
  let liked := Advertisement.set_likes ad (Advertisement.likes ad + 1) in
  let p1 := profile_after_save liked false p in
  handle (route_like_advertisement pk) request s =
    (mkDB (auth_user s) (auth_user_seq s)
       (<[pk := liked]> (board_advertisement s)) (board_advertisement_seq s)
       (board_comment s) (board_comment_seq s)
       (<[Advertisement.author ad :=
            UserProfile.set_total_likes p1 (UserProfile.total_likes p1 + 1)]>
          (board_userprofile s)),
     redirect (url_advertisement_detail pk)).
Proof.
  intros Hu Had Hp liked p1.
  unfold handle, respond, view_of, like_advertisement, login_required.
  rewrite Hu. unfold bind at 1, get_object_or_404, bind at 1, gets. rewrite Had.
  cbn -[Advertisement.set_likes]. fold liked.
  unfold bind at 1. rewrite (Advertisement_save_update s pk ad liked Had).
  rewrite post_save_send_profile by (right; cbn; rewrite Hp; eauto).
  cbn -[profile_after_save]. rewrite Hp. cbn -[profile_after_save]. fold liked p1.
  unfold bind, UserProfile_get, gets, bind, UserProfile_save, modify, ret.
  cbn -[profile_after_save]. rewrite lookup_insert_eq. cbn -[profile_after_save].
  by rewrite insert_insert_eq.
Qed.

Lemma handle_dislike_advertisement_eq
    (s : DB) (request : HttpRequest) (u : User) (pk : nat)
    (ad : Advertisement.t) (p : UserProfile.t) :
  user request = Some u →
  board_advertisement s !! pk = Some ad →
  board_userprofile s !! Advertisement.author ad = Some p →
  let disliked := Advertisement.set_dislikes ad (Advertisement.dislikes ad + 1) in
  let p1 := profile_after_save disliked false p in
  handle (route_dislike_advertisement pk) request s =
    (mkDB (auth_user s) (auth_user_seq s)
       (<[pk := disliked]> (board_advertisement s)) (board_advertisement_seq s)
       (board_comment s) (board_comment_seq s)
       (<[Advertisement.author ad :=
            UserProfile.set_total_dislikes p1 (UserProfile.total_dislikes p1 + 1)]>
          (board_userprofile s)),
     redirect (url_advertisement_detail pk)).
Proof.
  intros Hu Had Hp disliked p1.
  unfold handle, respond, view_of, dislike_advertisement, login_required.
  rewrite Hu. unfold bind at 1, get_object_or_404, bind at 1, gets. rewrite Had.
  cbn -[Advertisement.set_dislikes]. fold disliked.
  unfold bind at 1. rewrite (Advertisement_save_update s pk ad disliked Had).
  rewrite post_save_send_profile by (right; cbn; rewrite Hp; eauto).
  cbn -[profile_after_save]. rewrite Hp. cbn -[profile_after_save]. fold disliked p1.
  unfold bind, UserProfile_get, gets, bind, UserProfile_save, modify, ret.
  cbn -[profile_after_save]. rewrite lookup_insert_eq. cbn -[profile_after_save].
  by rewrite insert_insert_eq.
Qed.

Lemma handle_edit_advertisement_eq
    (s : DB) (request : HttpRequest) (pk : nat) (form : AdvertisementForm.t)
    (ad : Advertisement.t) (p : UserProfile.t) :
  user request = Some (Advertisement.author ad) →
  is_POST request = true →
  POST_AdvertisementForm request = Some form →
  board_advertisement s !! pk = Some ad →
  board_userprofile s !! Advertisement.author ad = Some p →
  let edited := construct_instance form ad in
  handle (route_edit_advertisement pk) request s =
    (mkDB (auth_user s) (auth_user_seq s)
       (<[pk := edited]> (board_advertisement s)) (board_advertisement_seq s)
       (board_comment s) (board_comment_seq s)
       (<[Advertisement.author ad := profile_after_save edited false p]>
          (board_userprofile s)),
     redirect (url_advertisement_detail pk)).
Proof.
  intros Hu Hpost Hform Had Hp edited.
  unfold handle, respond, view_of, edit_advertisement, login_required.
  rewrite Hu. unfold bind at 1, get_object_or_404, bind at 1, gets. rewrite Had. cbn.
  rewrite bool_decide_eq_false_2 by (intros H; by apply H).
  rewrite Hpost, Hform. fold edited.
  unfold bind at 1. rewrite (Advertisement_save_update s pk ad edited Had).
  rewrite post_save_send_profile by (right; cbn; rewrite Hp; eauto).
  cbn -[profile_after_save]. by rewrite Hp.
Qed.

Lemma handle_delete_advertisement_eq
    (s : DB) (request : HttpRequest) (pk : nat)
    (ad : Advertisement.t) (p : UserProfile.t) :
  user request = Some (Advertisement.author ad) →
  is_POST request = true →
  board_advertisement s !! pk = Some ad →
  board_userprofile s !! Advertisement.author ad = Some p →
  handle (route_delete_advertisement pk) request s =
    (mkDB (auth_user s) (auth_user_seq s)
       (delete pk (board_advertisement s)) (board_advertisement_seq s)
       (filter (λ kc, Comment.advertisement kc.2 ≠ pk) (board_comment s))
       (board_comment_seq s)
       (<[Advertisement.author ad :=
            UserProfile.set_advertisements_count p
              (UserProfile.advertisements_count p - 1)]>
          (board_userprofile s)),
     redirect url_advertisement_list).
Proof.
  intros Hu Hpost Had Hp.
  unfold handle, respond, view_of, delete_advertisement, login_required.
  rewrite Hu. unfold bind at 1, get_object_or_404, bind at 1, gets. rewrite Had. cbn.
  rewrite bool_decide_eq_false_2 by (intros H; by apply H).
  rewrite Hpost. unfold bind. by rewrite Advertisement_delete_eq, Hp.
Qed.

Lemma handle_add_advertisement_eq
    (s : DB) (request : HttpRequest) (u : User) (form : AdvertisementForm.t) :
  user request = Some u →
  is_POST request = true →
  POST_AdvertisementForm request = Some form →
  board_advertisement s !! board_advertisement_seq s = None →
  let instance := new_advertisement form u (now request) in
  handle route_add_advertisement request s =
    (mkDB (auth_user s) (auth_user_seq s)
       (<[board_advertisement_seq s := instance]> (board_advertisement s))
       (S (board_advertisement_seq s))
       (board_comment s) (board_comment_seq s)
       (<[u := profile_after_save instance true
                 (default UserProfile.default (board_userprofile s !! u))]>
          (board_userprofile s)),
     redirect url_advertisement_list).
Proof.
  intros Hu Hpost Hform Hfresh instance.
  unfold handle, respond, view_of, add_advertisement, login_required.
  rewrite Hu, Hpost, Hform. fold instance. unfold bind.
  by rewrite Advertisement_save_insert.
Qed.

(** A request that is not a POST, or whose form did not validate,
    leaves the add view without a write. *)
Lemma handle_add_advertisement_no_write (s : DB) (request : HttpRequest) :
  is_POST request = false ∨ POST_AdvertisementForm request = None →
  (handle route_add_advertisement request s).1 = s.
Proof.
  intros H. unfold handle, respond, view_of, add_advertisement, login_required.
  destruct (user request); [|done].
  destruct (is_POST request); [|done].
  destruct H as [H|H]; [done | by rewrite H].
Qed.

(** ** The statistics receivers on every save *)

Lemma profile_after_save_likes (instance : Advertisement.t) (created : bool) p :
  (Advertisement.likes instance > 0 →
   UserProfile.total_likes (profile_after_save instance created p)
     = UserProfile.total_likes p + 1)
  ∧ (Advertisement.likes instance ≤ 0 →
     UserProfile.total_likes (profile_after_save instance created p)
       = UserProfile.total_likes p).
Proof. cbn. case_bool_decide; split; intros; lia. Qed.

Lemma profile_after_save_dislikes (instance : Advertisement.t) (created : bool) p :
  (Advertisement.dislikes instance > 0 →
   UserProfile.total_dislikes (profile_after_save instance created p)
     = UserProfile.total_dislikes p + 1)
  ∧ (Advertisement.dislikes instance ≤ 0 →
     UserProfile.total_dislikes (profile_after_save instance created p)
       = UserProfile.total_dislikes p).
Proof. cbn. case_bool_decide; split; intros; lia. Qed.

(** C2: on every save of an advertisement whose author has a profile,
    whether the row was created or not, the receivers add one to
    [total_likes] when [likes] is positive and leave it when it is not,
    and the same for [total_dislikes] and [dislikes]: they look at the
    value of the counter, not at a change of it.  In particular an edit
    by the author, which keeps both counters of the advertisement, adds
    one to each total whose counter is positive. *)
Theorem receivers_count_on_every_save :
  (∀ s instance created p,
      board_userprofile s !! Advertisement.author instance = Some p →
      ∃ s' p',
        post_save_send instance created s = Done s' tt
        ∧ board_userprofile s' !! Advertisement.author instance = Some p'
        ∧ (Advertisement.likes instance > 0 →
           UserProfile.total_likes p' = UserProfile.total_likes p + 1)
        ∧ (Advertisement.likes instance ≤ 0 →
           UserProfile.total_likes p' = UserProfile.total_likes p)
        ∧ (Advertisement.dislikes instance > 0 →
           UserProfile.total_dislikes p' = UserProfile.total_dislikes p + 1)
        ∧ (Advertisement.dislikes instance ≤ 0 →
           UserProfile.total_dislikes p' = UserProfile.total_dislikes p))
  ∧ (∀ s request pk form ad p,
      user request = Some (Advertisement.author ad) →
      is_POST request = true →
      POST_AdvertisementForm request = Some form →
      board_advertisement s !! pk = Some ad →
      board_userprofile s !! Advertisement.author ad = Some p →
      ∃ ad' p',
        board_advertisement (handle (route_edit_advertisement pk) request s).1 !! pk
          = Some ad'
        ∧ Advertisement.likes ad' = Advertisement.likes ad
        ∧ Advertisement.dislikes ad' = Advertisement.dislikes ad
        ∧ board_userprofile (handle (route_edit_advertisement pk) request s).1
            !! Advertisement.author ad = Some p'
        ∧ (Advertisement.likes ad > 0 →
           UserProfile.total_likes p' = UserProfile.total_likes p + 1)
        ∧ (Advertisement.dislikes ad > 0 →
           UserProfile.total_dislikes p' = UserProfile.total_dislikes p + 1)).
Proof.
  split.
  - intros s instance created p Hp.
    rewrite post_save_send_profile by (right; rewrite Hp; eauto).
    rewrite Hp. do 2 eexists. split; [done|]. split.
    { cbn -[profile_after_save]. apply lookup_insert_eq. }
    pose proof (profile_after_save_likes instance created p) as [Hl1 Hl2].
    pose proof (profile_after_save_dislikes instance created p) as [Hd1 Hd2].
    done.
  - intros s request pk form ad p Hu Hpost Hform Had Hp.
    rewrite (handle_edit_advertisement_eq s request pk form ad p) by done.
    cbn -[profile_after_save]. rewrite !lookup_insert_eq.
    do 2 eexists. split; [done|]. split; [done|]. split; [done|]. split; [done|].
    pose proof (profile_after_save_likes (construct_instance form ad) false p) as [H1 _].
    pose proof (profile_after_save_dislikes (construct_instance form ad) false p) as [H2 _].
    done.
Qed.

(** ** A primary key that matches no advertisement *)

(** C3, as the code has it: the views that fetch with
    [get_object_or_404] answer an authenticated request for a missing
    advertisement with the not-found response; the detail view fetches
    with a plain [get], so the exception [Advertisement.DoesNotExist]
    leaves the view and the answer is a server error; an anonymous
    request to one of the four protected views is sent to the login
    page before the advertisement is looked up. *)
Theorem missing_advertisement_responses (s : DB) (request : HttpRequest) (pk : nat) :
  board_advertisement s !! pk = None →
  handle (route_advertisement_detail pk) request s
    = (s, server_error (DoesNotExist "Advertisement"))
  ∧ (is_Some (user request) →
     handle (route_edit_advertisement pk) request s = (s, not_found)
     ∧ handle (route_delete_advertisement pk) request s = (s, not_found)
     ∧ handle (route_like_advertisement pk) request s = (s, not_found)
     ∧ handle (route_dislike_advertisement pk) request s = (s, not_found))
  ∧ (user request = None →
     handle (route_edit_advertisement pk) request s = (s, redirect url_login)
     ∧ handle (route_delete_advertisement pk) request s = (s, redirect url_login)
     ∧ handle (route_like_advertisement pk) request s = (s, redirect url_login)
     ∧ handle (route_dislike_advertisement pk) request s = (s, redirect url_login)).
Proof.
  intros Hnone. split_and!.
  - unfold handle, respond, view_of, advertisement_detail, Advertisement_get.
    unfold_monad. by rewrite Hnone.
  - intros [u Hu]. unfold_views. rewrite Hu.
    unfold get_object_or_404. unfold_monad. by rewrite Hnone.
  - intros Hanon. unfold_views. by rewrite Hanon.
Qed.

Lemma missing_advertisement_responses_witness :
  handle (route_advertisement_detail 7) (GET (Some 1%nat)) two_users_one_advertisement
    = (two_users_one_advertisement, server_error (DoesNotExist "Advertisement"))
  ∧ handle (route_like_advertisement 7) (GET (Some 1%nat)) two_users_one_advertisement
    = (two_users_one_advertisement, not_found).
Proof.
  assert (board_advertisement two_users_one_advertisement !! 7%nat = None) as Hnone
    by (vm_compute; reflexivity).
  destruct (missing_advertisement_responses two_users_one_advertisement
              (GET (Some 1%nat)) 7 Hnone) as (Hdetail & Hrest & _).
  split; [exact Hdetail|].
  destruct Hrest as (_ & _ & Hlike & _); [by eexists | exact Hlike].
Defined.

(** The claim C3 as the specification words it fails twice: the detail
    view answers a missing advertisement with a server error, and a
    protected view answers an anonymous request with the redirect to
    the login page before it looks the advertisement up. *)
Lemma missing_advertisement_not_always_not_found :
  board_advertisement empty_db !! 7%nat = None
  ∧ (handle (route_advertisement_detail 7) (GET None) empty_db).2
      = server_error (DoesNotExist "Advertisement")
  ∧ (handle (route_advertisement_detail 7) (GET None) empty_db).2 ≠ not_found
  ∧ (handle (route_edit_advertisement 7) (GET None) empty_db).2 = redirect url_login
  ∧ (handle (route_edit_advertisement 7) (GET None) empty_db).2 ≠ not_found.
Proof. repeat split; discriminate. Qed.

(** ** Deleting a user *)

Lemma set_advertisements_count_same (p : UserProfile.t) :
  UserProfile.set_advertisements_count p (UserProfile.advertisements_count p - 0) = p.
Proof. destruct p. unfold UserProfile.set_advertisements_count. cbn. f_equal. lia. Qed.

(** The [post_delete] receivers over the advertisements of one author:
    with a profile, its count goes down by their number; without one,
    the first of them raises. *)
Lemma for_each_post_delete (l : list (nat * Advertisement.t)) (u : User) (s : DB) :
  Forall (λ ka, Advertisement.author ka.2 = u) l →
  for_each (λ ka, post_delete_send ka.2) l s =
    match board_userprofile s !! u with
    | Some p =>
        Done (with_profiles s
                (<[u := UserProfile.set_advertisements_count p
                          (UserProfile.advertisements_count p - Z.of_nat (length l))]>
                   (board_userprofile s))) tt
    | None =>
        match l with
        | [] => Done s tt
        | _ :: _ => Raised s (DoesNotExist "UserProfile")
        end
    end.
Proof.
  intros Hall. revert s. induction Hall as [|[k ad] l Hu Hall IH]; intros s.
  - cbn. destruct (board_userprofile s !! u) as [p|] eqn:Hp; [|done].
    change (Z.of_nat 0) with 0. rewrite set_advertisements_count_same.
    by rewrite insert_id, with_profiles_id.
  - cbn [for_each]. unfold bind at 1. rewrite post_delete_send_profile.
    cbn in Hu. cbn [snd]. rewrite Hu.
    destruct (board_userprofile s !! u) as [p|] eqn:Hp; [|done].
    rewrite IH. cbn. rewrite lookup_insert_eq, with_profiles_twice, insert_insert_eq.
    do 3 f_equal. unfold UserProfile.set_advertisements_count. cbn. f_equal. lia.
Qed.

Lemma advertisements_of_authors (u : User) (s : DB) :
  Forall (λ ka, Advertisement.author ka.2 = u) (map_to_list (advertisements_of u s)).
Proof.
  apply Forall_forall. intros [k ad] Hin.
  apply elem_of_map_to_list in Hin.
  by apply map_lookup_filter_Some in Hin as [_ ?].
Qed.

(** [user.delete()] in one equation: the deletion goes through when
    the user has no advertisement, or when the receivers still find the
    profile; otherwise the receiver raises and the transaction is
    rolled back. *)
Lemma User_delete_eq (profile_first : bool) (u : User) (s : DB) :
  User_delete profile_first u s =
    if bool_decide (advertisements_of u s = ∅
                    ∨ (profile_first = false ∧ is_Some (board_userprofile s !! u)))
    then Done (without_user u s) tt
    else Raised s (DoesNotExist "UserProfile").
Proof.
  unfold User_delete, atomic, without_user.
  unfold bind at 1, gets. unfold bind at 1, modify. unfold bind at 1.
  pose proof (advertisements_of_authors u s) as Hall.
  destruct profile_first.
  - unfold bind at 1. unfold bind at 1.
    rewrite (for_each_post_delete _ u) by done. cbn. rewrite lookup_delete_eq.
    destruct (map_to_list (advertisements_of u s)) as [|ka l] eqn:Hl.
    + apply map_to_list_empty_iff in Hl. rewrite bool_decide_eq_true_2 by (by left).
      done.
    + rewrite bool_decide_eq_false_2; [done|].
      intros [Hempty|[? _]]; [|done]. by rewrite Hempty, map_to_list_empty in Hl.
  - unfold ret at 1. unfold bind at 1. unfold bind at 1.
    rewrite (for_each_post_delete _ u) by done. cbn.
    destruct (board_userprofile s !! u) as [p|] eqn:Hp.
    + rewrite bool_decide_eq_true_2 by (right; eauto). cbn.
      by rewrite delete_insert_eq.
    + destruct (map_to_list (advertisements_of u s)) as [|ka l] eqn:Hl.
      * apply map_to_list_empty_iff in Hl. rewrite bool_decide_eq_true_2 by (by left).
        done.
      * rewrite bool_decide_eq_false_2; [done|].
        intros [Hempty|[_ [? ?]]]; [|done]. by rewrite Hempty, map_to_list_empty in Hl.
Qed.

(** ** Consistency is kept *)

Lemma consistent_empty : consistent empty_db.
Proof.
  split; cbn; intros *; rewrite ?lookup_empty; try done.
  all: try (by intros [? ?]); by intros ?%not_elem_of_empty.
Qed.

Lemma consistent_with_profiles (s : DB) (u : User) (p : UserProfile.t) :
  consistent s → consistent (with_profiles s (<[u := p]> (board_userprofile s))).
Proof.
  intros [Hseq Hus Hlive Hprof Hnn Hcom]. split; cbn; try done.
  intros pk ad Had. destruct (decide (u = Advertisement.author ad)) as [->|Hne].
  - rewrite lookup_insert_eq. eauto.
  - rewrite lookup_insert_ne by done. eauto.
Qed.

Lemma consistent_saved
    (s : DB) (pk seq' : nat) (ad : Advertisement.t) (p : UserProfile.t) :
  consistent s →
  (pk < seq')%nat →
  (board_advertisement_seq s ≤ seq')%nat →
  Advertisement.author ad ∈ auth_user s →
  0 ≤ Advertisement.likes ad →
  0 ≤ Advertisement.dislikes ad →
  consistent
    (mkDB (auth_user s) (auth_user_seq s)
       (<[pk := ad]> (board_advertisement s)) seq'
       (board_comment s) (board_comment_seq s)
       (<[Advertisement.author ad := p]> (board_userprofile s))).
Proof.
  intros [Hseq Hus Hlive Hprof Hnn Hcom] Hpk Hle Hauthor Hl Hd. split; cbn; try done.
  - intros k [x Hx]. destruct (decide (pk = k)) as [->|Hne]; [done|].
    rewrite lookup_insert_ne in Hx by done.
    specialize (Hseq k (ltac:(eauto))). lia.
  - intros k x Hx. destruct (decide (pk = k)) as [->|Hne].
    + rewrite lookup_insert_eq in Hx. by injection Hx as <-.
    + rewrite lookup_insert_ne in Hx by done. eauto.
  - intros k x Hx. destruct (decide (pk = k)) as [->|Hne].
    + rewrite lookup_insert_eq in Hx. injection Hx as <-.
      rewrite lookup_insert_eq. eauto.
    + rewrite lookup_insert_ne in Hx by done.
      destruct (decide (Advertisement.author ad = Advertisement.author x)) as [->|Hne'].
      * rewrite lookup_insert_eq. eauto.
      * rewrite lookup_insert_ne by done. eauto.
  - intros k x Hx. destruct (decide (pk = k)) as [->|Hne].
    + rewrite lookup_insert_eq in Hx. by injection Hx as <-.
    + rewrite lookup_insert_ne in Hx by done. eauto.
  - intros k c Hc. destruct (Hcom k c Hc) as [Had Hu]. split; [|done].
    destruct (decide (pk = Comment.advertisement c)) as [->|Hne].
    + rewrite lookup_insert_eq. eauto.
    + by rewrite lookup_insert_ne.
Qed.

Lemma consistent_deleted (s : DB) (pk : nat) (u : User) (p : UserProfile.t) :
  consistent s →
  consistent
    (mkDB (auth_user s) (auth_user_seq s)
       (delete pk (board_advertisement s)) (board_advertisement_seq s)
       (filter (λ kc, Comment.advertisement kc.2 ≠ pk) (board_comment s))
       (board_comment_seq s)
       (<[u := p]> (board_userprofile s))).
Proof.
  intros [Hseq Hus Hlive Hprof Hnn Hcom]. split; cbn; try done.
  - intros k [x Hx]. apply lookup_delete_Some in Hx as [_ Hx]. eauto.
  - intros k x Hx. apply lookup_delete_Some in Hx as [_ Hx]. eauto.
  - intros k x Hx. apply lookup_delete_Some in Hx as [_ Hx].
    destruct (decide (u = Advertisement.author x)) as [->|Hne].
    + rewrite lookup_insert_eq. eauto.
    + rewrite lookup_insert_ne by done. eauto.
  - intros k x Hx. apply lookup_delete_Some in Hx as [_ Hx]. eauto.
  - intros k c Hc. apply map_lookup_filter_Some in Hc as [Hc Hne]. cbn in Hne.
    destruct (Hcom k c Hc) as [Had Hu]. split; [|done].
    by rewrite lookup_delete_ne.
Qed.

Lemma consistent_user_added (s : DB) :
  consistent s →
  consistent (with_users s ({[auth_user_seq s]} ∪ auth_user s) (S (auth_user_seq s))).
Proof.
  intros [Hseq Hus Hlive Hprof Hnn Hcom]. split; cbn; try done.
  - intros u Hu. apply elem_of_union in Hu as [Hu|Hu].
    + apply elem_of_singleton in Hu. lia.
    + specialize (Hus u Hu). lia.
  - intros k x Hx. apply elem_of_union. right. eauto.
  - intros k c Hc. destruct (Hcom k c Hc). split; [done|].
    apply elem_of_union. by right.
Qed.

Lemma consistent_commented (s : DB) (c : Comment.t) :
  consistent s →
  is_Some (board_advertisement s !! Comment.advertisement c) →
  Comment.author c ∈ auth_user s →
  consistent
    (with_comments s (<[board_comment_seq s := c]> (board_comment s))
       (S (board_comment_seq s))).
Proof.
  intros [Hseq Hus Hlive Hprof Hnn Hcom] Had Hu. split; cbn; try done.
  intros k x Hx. destruct (decide (board_comment_seq s = k)) as [<-|Hne].
  - rewrite lookup_insert_eq in Hx. by injection Hx as <-.
  - rewrite lookup_insert_ne in Hx by done. eauto.
Qed.

Lemma consistent_without_user (s : DB) (u : User) :
  consistent s → consistent (without_user u s).
Proof.
  intros [Hseq Hus Hlive Hprof Hnn Hcom]. split; cbn.
  - intros k [x Hx]. apply map_lookup_filter_Some in Hx as [Hx _]. eauto.
  - intros v Hv. apply Hus. by apply elem_of_difference in Hv as [? _].
  - intros k x Hx. apply map_lookup_filter_Some in Hx as [Hx Hne]. cbn in Hne.
    apply elem_of_difference. split; [eauto|]. by intros ?%elem_of_singleton.
  - intros k x Hx. apply map_lookup_filter_Some in Hx as [Hx Hne]. cbn in Hne.
    rewrite lookup_delete_ne by done. eauto.
  - intros k x Hx. apply map_lookup_filter_Some in Hx as [Hx _]. eauto.
  - intros k c Hc. apply map_lookup_filter_Some in Hc as [Hc [Hne Hnot]].
    cbn in Hne, Hnot. destruct (Hcom k c Hc) as [[ad Had] Hu]. split.
    + exists ad. apply map_lookup_filter_Some. split; [done|]. cbn.
      intros Hau. unfold advertisements_of in Hnot.
      apply map_lookup_filter_None in Hnot as [Hnot|Hnot]; [congruence|].
      by apply (Hnot ad).
    + apply elem_of_difference. split; [done|]. by intros ?%elem_of_singleton.
Qed.

Lemma signup_consistent (s : DB) (request : HttpRequest) :
  consistent s → consistent (handle route_signup request s).1.
Proof.
  intros Hs. unfold handle, respond, view_of, signup.
  destruct (is_POST request); [|done].
  destruct (POST_SignUpForm request); [|done].
  unfold User_create, UserProfile_create, UserProfile_save. unfold_monad. cbn.
  pose proof (consistent_user_added s Hs) as Hs'.
  destruct (_ !! _); [exact Hs'|].
  exact (consistent_with_profiles _ (auth_user_seq s) UserProfile.default Hs').
Qed.

Lemma advertisement_list_unchanged (s : DB) (request : HttpRequest) :
  (handle route_advertisement_list request s).1 = s.
Proof.
  unfold handle, respond, view_of, advertisement_list. unfold_monad.
  by destruct (Paginator.get_page _ _) as [[]|].
Qed.

Lemma advertisement_detail_unchanged (s : DB) (request : HttpRequest) (pk : nat) :
  (handle (route_advertisement_detail pk) request s).1 = s.
Proof.
  unfold handle, respond, view_of, advertisement_detail, Advertisement_get.
  unfold_monad. by destruct (board_advertisement s !! pk).
Qed.

Lemma add_advertisement_consistent (s : DB) (request : HttpRequest) :
  consistent s →
  allowed (act_request route_add_advertisement request) s →
  consistent (handle route_add_advertisement request s).1.
Proof.
  intros Hs Hallowed.
  destruct (is_POST request) eqn:Hpost;
    [|by rewrite handle_add_advertisement_no_write by (by left)].
  destruct (POST_AdvertisementForm request) as [form|] eqn:Hform;
    [|by rewrite handle_add_advertisement_no_write by (by right)].
  destruct (user request) as [u|] eqn:Hu.
  - assert (board_advertisement s !! board_advertisement_seq s = None) as Hfresh.
    { destruct (board_advertisement s !! board_advertisement_seq s) eqn:Hx; [|done].
      pose proof (sequence_ahead s Hs _ (ltac:(eauto))). lia. }
    rewrite (handle_add_advertisement_eq s request u form) by done.
    apply (consistent_saved s _ _ (new_advertisement form u (now request)));
      cbn; try done; try lia.
    by apply Hallowed.
  - unfold handle, respond, view_of, add_advertisement, login_required.
    by rewrite Hu.
Qed.

(** Each writing view either leaves the database as it is or writes
    what its equation says. *)
Lemma edit_advertisement_cases (s : DB) (request : HttpRequest) (pk : nat) :
  consistent s →
  (handle (route_edit_advertisement pk) request s).1 = s
  ∨ ∃ form ad p,
      board_advertisement s !! pk = Some ad
      ∧ board_userprofile s !! Advertisement.author ad = Some p
      ∧ (handle (route_edit_advertisement pk) request s).1 =
          mkDB (auth_user s) (auth_user_seq s)
            (<[pk := construct_instance form ad]> (board_advertisement s))
            (board_advertisement_seq s) (board_comment s) (board_comment_seq s)
            (<[Advertisement.author ad :=
                 profile_after_save (construct_instance form ad) false p]>
               (board_userprofile s)).
Proof.
  intros Hs.
  destruct (user request) as [u|] eqn:Hu; cycle 1.
  { left. unfold_views. by rewrite Hu. }
  destruct (board_advertisement s !! pk) as [ad|] eqn:Had; cycle 1.
  { left. unfold_views. rewrite Hu. unfold get_object_or_404. unfold_monad.
    by rewrite Had. }
  destruct (decide (Advertisement.author ad = u)) as [<-|Hne]; cycle 1.
  { left. unfold_views. rewrite Hu. unfold get_object_or_404. unfold_monad.
    rewrite Had. cbn. by rewrite bool_decide_eq_true_2 by done. }
  destruct (is_POST request) eqn:Hpost; cycle 1.
  { left. unfold_views. rewrite Hu. unfold get_object_or_404. unfold_monad.
    rewrite Had. cbn.
    rewrite bool_decide_eq_false_2 by (intros H; by apply H). by rewrite Hpost. }
  destruct (POST_AdvertisementForm request) as [form|] eqn:Hform; cycle 1.
  { left. unfold_views. rewrite Hu. unfold get_object_or_404. unfold_monad.
    rewrite Had. cbn.
    rewrite bool_decide_eq_false_2 by (intros H; by apply H).
    by rewrite Hpost, Hform. }
  destruct (authors_have_profiles s Hs pk ad Had) as [p Hp].
  right. exists form, ad, p. split; [done|]. split; [done|].
  by rewrite (handle_edit_advertisement_eq s request pk form ad p).
Qed.

Lemma delete_advertisement_cases (s : DB) (request : HttpRequest) (pk : nat) :
  consistent s →
  (handle (route_delete_advertisement pk) request s).1 = s
  ∨ ∃ ad p,
      board_advertisement s !! pk = Some ad
      ∧ board_userprofile s !! Advertisement.author ad = Some p
      ∧ (handle (route_delete_advertisement pk) request s).1 =
          mkDB (auth_user s) (auth_user_seq s)
            (delete pk (board_advertisement s)) (board_advertisement_seq s)
            (filter (λ kc, Comment.advertisement kc.2 ≠ pk) (board_comment s))
            (board_comment_seq s)
            (<[Advertisement.author ad :=
                 UserProfile.set_advertisements_count p
                   (UserProfile.advertisements_count p - 1)]>
               (board_userprofile s)).
Proof.
  intros Hs.
  destruct (user request) as [u|] eqn:Hu; cycle 1.
  { left. unfold_views. by rewrite Hu. }
  destruct (board_advertisement s !! pk) as [ad|] eqn:Had; cycle 1.
  { left. unfold_views. rewrite Hu. unfold get_object_or_404. unfold_monad.
    by rewrite Had. }
  destruct (decide (Advertisement.author ad = u)) as [<-|Hne]; cycle 1.
  { left. unfold_views. rewrite Hu. unfold get_object_or_404. unfold_monad.
    rewrite Had. cbn. by rewrite bool_decide_eq_true_2 by done. }
  destruct (is_POST request) eqn:Hpost; cycle 1.
  { left. unfold_views. rewrite Hu. unfold get_object_or_404. unfold_monad.
    rewrite Had. cbn.
    rewrite bool_decide_eq_false_2 by (intros H; by apply H). by rewrite Hpost. }
  destruct (authors_have_profiles s Hs pk ad Had) as [p Hp].
  right. exists ad, p. split; [done|]. split; [done|].
  by rewrite (handle_delete_advertisement_eq s request pk ad p).
Qed.

Lemma like_advertisement_cases (s : DB) (request : HttpRequest) (pk : nat) :
  consistent s →
  (handle (route_like_advertisement pk) request s).1 = s
  ∨ ∃ ad p p',
      board_advertisement s !! pk = Some ad
      ∧ board_userprofile s !! Advertisement.author ad = Some p
      ∧ UserProfile.advertisements_count p' = UserProfile.advertisements_count p
      ∧ (handle (route_like_advertisement pk) request s).1 =
          mkDB (auth_user s) (auth_user_seq s)
            (<[pk := Advertisement.set_likes ad (Advertisement.likes ad + 1)]>
               (board_advertisement s))
            (board_advertisement_seq s) (board_comment s) (board_comment_seq s)
            (<[Advertisement.author ad := p']> (board_userprofile s)).
Proof.
  intros Hs.
  destruct (user request) as [u|] eqn:Hu; cycle 1.
  { left. unfold_views. by rewrite Hu. }
  destruct (board_advertisement s !! pk) as [ad|] eqn:Had; cycle 1.
  { left. unfold_views. rewrite Hu. unfold get_object_or_404. unfold_monad.
    by rewrite Had. }
  destruct (authors_have_profiles s Hs pk ad Had) as [p Hp].
  right. exists ad, p. eexists. split; [done|]. split; [done|].
  rewrite (handle_like_advertisement_eq s request u pk ad p) by done.
  split; [|done]. cbn. lia.
Qed.

Lemma dislike_advertisement_cases (s : DB) (request : HttpRequest) (pk : nat) :
  consistent s →
  (handle (route_dislike_advertisement pk) request s).1 = s
  ∨ ∃ ad p p',
      board_advertisement s !! pk = Some ad
      ∧ board_userprofile s !! Advertisement.author ad = Some p
      ∧ UserProfile.advertisements_count p' = UserProfile.advertisements_count p
      ∧ (handle (route_dislike_advertisement pk) request s).1 =
          mkDB (auth_user s) (auth_user_seq s)
            (<[pk := Advertisement.set_dislikes ad (Advertisement.dislikes ad + 1)]>
               (board_advertisement s))
            (board_advertisement_seq s) (board_comment s) (board_comment_seq s)
            (<[Advertisement.author ad := p']> (board_userprofile s)).
Proof.
  intros Hs.
  destruct (user request) as [u|] eqn:Hu; cycle 1.
  { left. unfold_views. by rewrite Hu. }
  destruct (board_advertisement s !! pk) as [ad|] eqn:Had; cycle 1.
  { left. unfold_views. rewrite Hu. unfold get_object_or_404. unfold_monad.
    by rewrite Had. }
  destruct (authors_have_profiles s Hs pk ad Had) as [p Hp].
  right. exists ad, p. eexists. split; [done|]. split; [done|].
  rewrite (handle_dislike_advertisement_eq s request u pk ad p) by done.
  split; [|done]. cbn. lia.
Qed.

Lemma edit_advertisement_consistent (s : DB) (request : HttpRequest) (pk : nat) :
  consistent s → consistent (handle (route_edit_advertisement pk) request s).1.
Proof.
  intros Hs.
  destruct (edit_advertisement_cases s request pk Hs)
    as [->|(form & ad & p & Had & Hp & ->)]; [done|].
  destruct (counters_not_negative s Hs pk ad Had).
  apply (consistent_saved s pk _ (construct_instance form ad)); cbn; try done.
  - apply (sequence_ahead s Hs). eauto.
  - by apply (authors_live s Hs pk).
Qed.

Lemma delete_advertisement_consistent (s : DB) (request : HttpRequest) (pk : nat) :
  consistent s → consistent (handle (route_delete_advertisement pk) request s).1.
Proof.
  intros Hs.
  destruct (delete_advertisement_cases s request pk Hs)
    as [->|(ad & p & Had & Hp & ->)]; [done|].
  by apply consistent_deleted.
Qed.

Lemma like_advertisement_consistent (s : DB) (request : HttpRequest) (pk : nat) :
  consistent s → consistent (handle (route_like_advertisement pk) request s).1.
Proof.
  intros Hs.
  destruct (like_advertisement_cases s request pk Hs)
    as [->|(ad & p & p' & Had & Hp & _ & ->)]; [done|].
  destruct (counters_not_negative s Hs pk ad Had).
  apply (consistent_saved s pk _
           (Advertisement.set_likes ad (Advertisement.likes ad + 1)));
    cbn; try done; try lia.
  - apply (sequence_ahead s Hs). eauto.
  - by apply (authors_live s Hs pk).
Qed.

Lemma dislike_advertisement_consistent (s : DB) (request : HttpRequest) (pk : nat) :
  consistent s → consistent (handle (route_dislike_advertisement pk) request s).1.
Proof.
  intros Hs.
  destruct (dislike_advertisement_cases s request pk Hs)
    as [->|(ad & p & p' & Had & Hp & _ & ->)]; [done|].
  destruct (counters_not_negative s Hs pk ad Had).
  apply (consistent_saved s pk _
           (Advertisement.set_dislikes ad (Advertisement.dislikes ad + 1)));
    cbn; try done; try lia.
  - apply (sequence_ahead s Hs). eauto.
  - by apply (authors_live s Hs pk).
Qed.

Lemma Comment_create_consistent (s : DB) (c : Comment.t) :
  consistent s → consistent (db_of (Comment_create c s)).
Proof.
  intros Hs. unfold Comment_create. unfold_monad. cbn.
  case_bool_decide as Hfk; cbn; [|done].
  destruct Hfk. by apply consistent_commented.
Qed.

Lemma User_delete_consistent (profile_first : bool) (u : User) (s : DB) :
  consistent s → consistent (db_of (User_delete profile_first u s)).
Proof.
  intros Hs. rewrite User_delete_eq. case_bool_decide; cbn; [|done].
  by apply consistent_without_user.
Qed.

Lemma handle_consistent (r : route) (request : HttpRequest) (s : DB) :
  consistent s → allowed (act_request r request) s → consistent (handle r request s).1.
Proof.
  intros Hs Hallowed. destruct r.
  - done.
  - by apply signup_consistent.
  - done.
  - by rewrite advertisement_list_unchanged.
  - by rewrite advertisement_detail_unchanged.
  - by apply add_advertisement_consistent.
  - by apply edit_advertisement_consistent.
  - by apply delete_advertisement_consistent.
  - by apply like_advertisement_consistent.
  - by apply dislike_advertisement_consistent.
Qed.

Lemma run_consistent (a : action) (s : DB) :
  consistent s → allowed a s → consistent (run a s).
Proof.
  intros Hs Hallowed. destruct a; cbn.
  - by apply handle_consistent.
  - by apply Comment_create_consistent.
  - by apply User_delete_consistent.
Qed.

Lemma reachable_consistent (s : DB) : reachable s → consistent s.
Proof.
  induction 1 as [|a s Hreach IH Hallowed].
  - apply consistent_empty.
  - by apply run_consistent.
Qed.

(** ** Likes and dislikes are counted twice *)

(** C9: in a reachable database, an authenticated like request on an
    advertisement that exists is answered by the redirect to its
    detail page, adds one to its [likes] and two to the [total_likes]
    of its author: one in the receiver, whose test [likes > 0] holds
    after the increment, and one in the view.  The same holds for a
    dislike request, [dislikes] and [total_dislikes]. *)
Theorem like_adds_one_and_total_two
    (s : DB) (request : HttpRequest) (u : User) (pk : nat) (ad : Advertisement.t) :
  reachable s →
  user request = Some u →
  board_advertisement s !! pk = Some ad →
  ∃ p, board_userprofile s !! Advertisement.author ad = Some p
    ∧ (∃ ad' p',
        (handle (route_like_advertisement pk) request s).2
          = redirect (url_advertisement_detail pk)
        ∧ board_advertisement (handle (route_like_advertisement pk) request s).1 !! pk
            = Some ad'
        ∧ Advertisement.likes ad' = Advertisement.likes ad + 1
        ∧ Advertisement.likes ad' > 0
        ∧ board_userprofile (handle (route_like_advertisement pk) request s).1
            !! Advertisement.author ad = Some p'
        ∧ UserProfile.total_likes p' = UserProfile.total_likes p + 2)
    ∧ (∃ ad' p',
        (handle (route_dislike_advertisement pk) request s).2
          = redirect (url_advertisement_detail pk)
        ∧ board_advertisement (handle (route_dislike_advertisement pk) request s).1 !! pk
            = Some ad'
        ∧ Advertisement.dislikes ad' = Advertisement.dislikes ad + 1
        ∧ Advertisement.dislikes ad' > 0
        ∧ board_userprofile (handle (route_dislike_advertisement pk) request s).1
            !! Advertisement.author ad = Some p'
        ∧ UserProfile.total_dislikes p' = UserProfile.total_dislikes p + 2).
Proof.
  intros Hreach Hu Had. apply reachable_consistent in Hreach as Hs.
  destruct (authors_have_profiles s Hs pk ad Had) as [p Hp].
  destruct (counters_not_negative s Hs pk ad Had) as [Hl Hd].
  exists p. split; [done|]. split.
  - rewrite (handle_like_advertisement_eq s request u pk ad p) by done.
    cbn. rewrite !lookup_insert_eq. do 2 eexists.
    split; [done|]. split; [done|]. split; [cbn; lia|]. split; [cbn; lia|].
    split; [done|]. cbn. rewrite bool_decide_eq_true_2 by lia. lia.
  - rewrite (handle_dislike_advertisement_eq s request u pk ad p) by done.
    cbn. rewrite !lookup_insert_eq. do 2 eexists.
    split; [done|]. split; [done|]. split; [cbn; lia|]. split; [cbn; lia|].
    split; [done|]. cbn. rewrite bool_decide_eq_true_2 by lia. lia.
Qed.

(** ** Adding an advertisement *)

(** C5: in a reachable database, an authenticated POST to the add view
    with a valid form is answered by the redirect to the list and
    inserts one row, under a key that was free, whose author is the
    requesting user, and touches no other advertisement; a request that
    is not a POST, or whose form is not valid, writes nothing. *)
Theorem add_advertisement_creates_one_row (s : DB) (request : HttpRequest) :
  reachable s →
  (∀ u form,
      user request = Some u →
      is_POST request = true →
      POST_AdvertisementForm request = Some form →
      ∃ pk ad,
        (handle route_add_advertisement request s).2 = redirect url_advertisement_list
        ∧ board_advertisement s !! pk = None
        ∧ board_advertisement (handle route_add_advertisement request s).1
            = <[pk := ad]> (board_advertisement s)
        ∧ size (board_advertisement (handle route_add_advertisement request s).1)
            = S (size (board_advertisement s))
        ∧ Advertisement.author ad = u)
  ∧ (is_POST request = false ∨ POST_AdvertisementForm request = None →
     (handle route_add_advertisement request s).1 = s).
Proof.
  intros Hreach. apply reachable_consistent in Hreach as Hs. split.
  - intros u form Hu Hpost Hform.
    assert (board_advertisement s !! board_advertisement_seq s = None) as Hfresh.
    { destruct (board_advertisement s !! board_advertisement_seq s) eqn:Hx; [|done].
      pose proof (sequence_ahead s Hs _ (ltac:(eauto))). lia. }
    rewrite (handle_add_advertisement_eq s request u form) by done. cbn.
    exists (board_advertisement_seq s), (new_advertisement form u (now request)).
    repeat split; try done. by apply map_size_insert_None.
  - apply handle_add_advertisement_no_write.
Qed.

(** ** Pages of the list *)

Lemma length_slice_le {A} (l : list A) (i j n : Z) :
  0 ≤ i → 0 ≤ j ≤ i + n → 0 ≤ n → Z.of_nat (length (slice l i j)) ≤ n.
Proof.
  intros Hi Hj Hn. unfold slice. cbv zeta beta. rewrite length_take, length_drop.
  destruct (Z.ltb_spec i 0); [lia|].
  destruct (Z.ltb_spec j 0); lia.
Qed.

Lemma slice_subseteq {A} (l : list A) (i j : Z) : slice l i j ⊆ l.
Proof.
  unfold slice. intros x Hx.
  apply subseteq_take in Hx. by apply subseteq_drop in Hx.
Qed.

Lemma num_pages_positive {A} (l : list A) (per_page : Z) :
  0 < per_page → 1 ≤ Paginator.num_pages (Paginator.mk l per_page 0 true).
Proof.
  intros Hpp. unfold Paginator.num_pages. cbn. rewrite andb_false_r.
  assert ((- Z.max 1 (Paginator.count (Paginator.mk l per_page 0 true) - 0)) / per_page < 0);
    [|lia].
  apply Z.div_lt_upper_bound; lia.
Qed.

(** [get_page] never raises: it falls back to the first or to the last
    page, and the page it returns is a slice of at most [per_page]
    objects. *)
Lemma get_page_total {A} (l : list A) (per_page : Z) (number : option Z) :
  0 < per_page →
  ∃ page_obj,
    Paginator.get_page (Paginator.mk l per_page 0 true) number = inr page_obj
    ∧ Z.of_nat (length (Paginator.page_object_list page_obj)) ≤ per_page
    ∧ Paginator.page_object_list page_obj ⊆ l
    ∧ 1 ≤ Paginator.number page_obj
        ≤ Paginator.num_pages (Paginator.mk l per_page 0 true).
Proof.
  intros Hpp. pose proof (num_pages_positive l per_page Hpp) as Hnum.
  set (p := Paginator.mk l per_page 0 true) in *.
  assert (∀ n, 1 ≤ n ≤ Paginator.num_pages p →
            ∃ page_obj, Paginator.page p n = inr page_obj
              ∧ Z.of_nat (length (Paginator.page_object_list page_obj)) ≤ per_page
              ∧ Paginator.page_object_list page_obj ⊆ l
              ∧ 1 ≤ Paginator.number page_obj ≤ Paginator.num_pages p) as Hpage.
  { intros n Hn. unfold Paginator.page, Paginator.validate_number.
    destruct (Z.ltb_spec n 1); [lia|].
    destruct (Z.gtb_spec n (Paginator.num_pages p)); [lia|].
    eexists. split; [done|]. cbn. split; [|split; [apply slice_subseteq | done]].
    apply length_slice_le; [nia| |lia].
    unfold Paginator.count.
    destruct (Z.geb_spec ((n - 1) * per_page + per_page + 0)
                (Z.of_nat (length (Paginator.object_list p)))); nia. }
  unfold Paginator.get_page, Paginator.validate_number.
  destruct number as [n|]; [|apply Hpage; lia].
  destruct (Z.ltb_spec n 1); [apply Hpage; lia|].
  destruct (Z.gtb_spec n (Paginator.num_pages p)); apply Hpage; lia.
Qed.

#[local] Instance by_pk_transitive : Transitive by_pk.
Proof. intros a b c. unfold by_pk. lia. Qed.

#[local] Instance by_pk_total : Total by_pk.
Proof. intros a b. unfold by_pk. lia. Qed.

(** [Advertisement.objects.all()] holds the rows of the table, each
    once, by ascending primary key. *)
Lemma Advertisement_all_rows (s : DB) :
  Advertisement_all s ≡ₚ map_to_list (board_advertisement s).
Proof. apply merge_sort_Permutation. Qed.

Lemma elem_of_Advertisement_all (s : DB) (pk : nat) (ad : Advertisement.t) :
  (pk, ad) ∈ Advertisement_all s ↔ board_advertisement s !! pk = Some ad.
Proof. by rewrite Advertisement_all_rows, elem_of_map_to_list. Qed.


(** C6: the list view hands the paginator all advertisements and a page
    size of five; whatever the collection and whatever the page
    parameter, absent, not a number or out of range, the paginator
    returns a page, and the page rendered holds at most five
    advertisements, all of them rows of the table. *)
Theorem advertisement_list_at_most_five_per_page :
  (∀ (advertisements : list (nat * Advertisement.t)) (page_number : option Z),
      ∃ page_obj,
        Paginator.get_page (Paginator.mk advertisements 5 0 true) page_number
          = inr page_obj
        ∧ Z.of_nat (length (Paginator.page_object_list page_obj)) ≤ 5)
  ∧ (∀ (s : DB) (request : HttpRequest),
      ∃ page_obj,
        handle route_advertisement_list request s
          = (s, render "board/advertisement_list.html" (ctx_page_obj page_obj))
        ∧ Z.of_nat (length page_obj) ≤ 5
        ∧ ∀ pk ad, (pk, ad) ∈ page_obj → board_advertisement s !! pk = Some ad).
Proof.
  split.
  - intros advertisements page_number.
    destruct (get_page_total advertisements 5 page_number) as (pg & Hpg & Hlen & _);
      [lia|]. eauto.
  - intros s request.
    destruct (get_page_total (Advertisement_all s) 5 (GET_page request))
      as (pg & Hpg & Hlen & Hsub & _); [lia|].
    exists (Paginator.page_object_list pg).
    unfold handle, respond, view_of, advertisement_list. unfold_monad.
    rewrite Hpg. split; [done|]. split; [done|].
    intros pk ad Hin. apply elem_of_Advertisement_all. by apply Hsub.
Qed.

(** ** Comments and the cascade *)

(** With the profile removed before the receivers run, the deletion of
    a user who has an advertisement is rolled back. *)
Lemma User_delete_profile_first_raises (u : User) (s : DB) (pk : nat) ad :
  board_advertisement s !! pk = Some ad →
  Advertisement.author ad = u →
  User_delete true u s = Raised s (DoesNotExist "UserProfile").
Proof.
  intros Had Hu. rewrite User_delete_eq. rewrite bool_decide_eq_false_2; [done|].
  intros [Hempty|[? _]]; [|done].
  assert (advertisements_of u s !! pk = Some ad) as Hin
    by (by apply map_lookup_filter_Some).
  by rewrite Hempty, lookup_empty in Hin.
Qed.

(** In every reachable database a comment references an advertisement
    and a user that exist. *)
Lemma reachable_comments_reference_rows (s : DB) :
  reachable s →
  ∀ k c, board_comment s !! k = Some c →
    is_Some (board_advertisement s !! Comment.advertisement c)
    ∧ Comment.author c ∈ auth_user s.
Proof.
  intros Hreach. apply reachable_consistent in Hreach.
  apply (comments_reference_rows s Hreach).
Qed.

(** ** The number of advertisements is kept *)

Section by_author.
Context (u : User).
Implicit Type m : gmap nat Advertisement.t.

#[local] Abbreviation by_author :=
  (filter (λ ka : nat * Advertisement.t, Advertisement.author ka.2 = u)).

Lemma size_by_author_insert_fresh m pk ad :
  m !! pk = None →
  size (by_author (<[pk := ad]> m))
    = if decide (Advertisement.author ad = u) then S (size (by_author m))
      else size (by_author m).
Proof.
  intros Hfresh. rewrite map_filter_insert. cbn.
  case_decide.
  - apply map_size_insert_None. apply map_lookup_filter_None. by left.
  - by rewrite delete_id.
Qed.

Lemma size_by_author_insert_same m pk old ad :
  m !! pk = Some old →
  Advertisement.author ad = Advertisement.author old →
  size (by_author (<[pk := ad]> m)) = size (by_author m).
Proof.
  intros Hold Hsame. rewrite map_filter_insert. cbn.
  case_decide as Hu.
  - apply map_size_insert_Some. exists old.
    apply map_lookup_filter_Some. split; [done|]. cbn. congruence.
  - f_equal. apply map_filter_delete_not. intros y Hy. cbn. congruence.
Qed.

Lemma size_by_author_delete m pk ad :
  m !! pk = Some ad →
  Z.of_nat (size (by_author (delete pk m)))
    = Z.of_nat (size (by_author m))
      - (if decide (Advertisement.author ad = u) then 1 else 0).
Proof.
  intros Had. rewrite map_filter_delete.
  rewrite map_size_delete. case_decide as Hu.
  - assert (by_author m !! pk = Some ad) as Hin by (by apply map_lookup_filter_Some).
    rewrite Hin.
    assert (size (by_author m) ≠ 0%nat) as Hpos.
    { intros Hzero. apply map_size_empty_inv in Hzero.
      by rewrite Hzero, lookup_empty in Hin. }
    lia.
  - assert (by_author m !! pk = None) as Hout.
    { apply map_lookup_filter_None. right. intros x Hx. cbn. congruence. }
    rewrite Hout. cbn. lia.
Qed.

Lemma by_author_without m v :
  u ≠ v →
  by_author (filter (λ ka : nat * Advertisement.t, Advertisement.author ka.2 ≠ v) m)
    = by_author m.
Proof.
  intros Hne. apply map_eq. intros i. apply option_eq. intros x.
  rewrite !map_lookup_filter_Some. cbn. split.
  - by intros [[Hx _] Hu].
  - intros [Hx Hu]. split; [split; [done|congruence]|done].
Qed.

End by_author.

Lemma counts_saved_same
    (s : DB) (pk : nat) (old ad : Advertisement.t) (p p' : UserProfile.t) :
  counts_match s →
  board_advertisement s !! pk = Some old →
  Advertisement.author ad = Advertisement.author old →
  board_userprofile s !! Advertisement.author ad = Some p →
  UserProfile.advertisements_count p' = UserProfile.advertisements_count p →
  counts_match
    (mkDB (auth_user s) (auth_user_seq s)
       (<[pk := ad]> (board_advertisement s)) (board_advertisement_seq s)
       (board_comment s) (board_comment_seq s)
       (<[Advertisement.author ad := p']> (board_userprofile s))).
Proof.
  intros Hcounts Hold Hsame Hp Hcount u q Hq. unfold advertisements_of. cbn in *.
  rewrite (size_by_author_insert_same u _ pk old ad) by done.
  destruct (decide (Advertisement.author ad = u)) as [<-|Hne].
  - rewrite lookup_insert_eq in Hq. injection Hq as <-.
    rewrite Hcount. by apply Hcounts.
  - rewrite lookup_insert_ne in Hq by done. by apply Hcounts.
Qed.

Lemma counts_added (s : DB) (seq' : nat) (ad : Advertisement.t) :
  consistent s →
  counts_match s →
  counts_match
    (mkDB (auth_user s) (auth_user_seq s)
       (<[board_advertisement_seq s := ad]> (board_advertisement s)) seq'
       (board_comment s) (board_comment_seq s)
       (<[Advertisement.author ad :=
            profile_after_save ad true
              (default UserProfile.default
                 (board_userprofile s !! Advertisement.author ad))]>
          (board_userprofile s))).
Proof.
  intros Hs Hcounts u q Hq. unfold advertisements_of. cbn in *.
  assert (board_advertisement s !! board_advertisement_seq s = None) as Hfresh.
  { destruct (board_advertisement s !! board_advertisement_seq s) eqn:Hx; [|done].
    pose proof (sequence_ahead s Hs _ (ltac:(eauto))). lia. }
  rewrite (size_by_author_insert_fresh u _ _ ad Hfresh).
  destruct (decide (Advertisement.author ad = u)) as [Hu|Hne].
  - rewrite Hu in Hq. rewrite lookup_insert_eq in Hq. injection Hq as <-. cbn.
    destruct (board_userprofile s !! u) as [p|] eqn:Hp; cbn.
    + rewrite (Hcounts u p Hp). unfold advertisements_of. lia.
    + assert (filter (λ ka : nat * Advertisement.t, Advertisement.author ka.2 = u)
                (board_advertisement s) = ∅) as ->.
      { apply map_empty. intros k. apply map_lookup_filter_None. right.
        intros x Hx Hau. cbn in Hau.
        destruct (authors_have_profiles s Hs k x Hx) as [p' Hp']. congruence. }
      by rewrite map_size_empty.
  - rewrite lookup_insert_ne in Hq by done. by apply Hcounts.
Qed.

Lemma counts_deleted
    (s : DB) (pk : nat) (ad : Advertisement.t) (p : UserProfile.t) comments :
  counts_match s →
  board_advertisement s !! pk = Some ad →
  board_userprofile s !! Advertisement.author ad = Some p →
  counts_match
    (mkDB (auth_user s) (auth_user_seq s)
       (delete pk (board_advertisement s)) (board_advertisement_seq s)
       comments (board_comment_seq s)
       (<[Advertisement.author ad :=
            UserProfile.set_advertisements_count p
              (UserProfile.advertisements_count p - 1)]>
          (board_userprofile s))).
Proof.
  intros Hcounts Had Hp u q Hq. unfold advertisements_of. cbn in *.
  rewrite (size_by_author_delete u _ pk ad Had).
  destruct (decide (Advertisement.author ad = u)) as [Hu|Hne].
  - rewrite Hu in Hq, Hp. rewrite lookup_insert_eq in Hq. injection Hq as <-. cbn.
    by rewrite (Hcounts u p Hp).
  - rewrite lookup_insert_ne in Hq by done. rewrite (Hcounts u q Hq).
    unfold advertisements_of. lia.
Qed.

Lemma counts_without_user (s : DB) (u : User) :
  counts_match s → counts_match (without_user u s).
Proof.
  intros Hcounts v q Hq. unfold advertisements_of. cbn in *.
  apply lookup_delete_Some in Hq as [Hne Hq].
  rewrite by_author_without by done. by apply Hcounts.
Qed.

Lemma signup_counts (s : DB) (request : HttpRequest) :
  consistent s → counts_match s → counts_match (handle route_signup request s).1.
Proof.
  intros Hs Hcounts. unfold handle, respond, view_of, signup.
  destruct (is_POST request); [|done].
  destruct (POST_SignUpForm request); [|done].
  unfold User_create, UserProfile_create, UserProfile_save. unfold_monad. cbn.
  destruct (_ !! _) eqn:Hp; [exact Hcounts|].
  intros u q Hq. unfold advertisements_of. cbn in *.
  destruct (decide (auth_user_seq s = u)) as [<-|Hne].
  - rewrite lookup_insert_eq in Hq. injection Hq as <-. cbn.
    assert (filter (λ ka : nat * Advertisement.t,
                      Advertisement.author ka.2 = auth_user_seq s)
              (board_advertisement s) = ∅) as ->.
    { apply map_empty. intros k. apply map_lookup_filter_None. right.
      intros x Hx Hau. cbn in Hau.
      pose proof (authors_live s Hs k x Hx) as Hlive.
      pose proof (users_behind s Hs _ Hlive). lia. }
    by rewrite map_size_empty.
  - rewrite lookup_insert_ne in Hq by done. by apply Hcounts.
Qed.

Lemma handle_counts (r : route) (request : HttpRequest) (s : DB) :
  consistent s → counts_match s → counts_match (handle r request s).1.
Proof.
  intros Hs Hcounts. destruct r.
  - done.
  - by apply signup_counts.
  - done.
  - by rewrite advertisement_list_unchanged.
  - by rewrite advertisement_detail_unchanged.
  - destruct (is_POST request) eqn:Hpost;
      [|by rewrite handle_add_advertisement_no_write by (by left)].
    destruct (POST_AdvertisementForm request) as [form|] eqn:Hform;
      [|by rewrite handle_add_advertisement_no_write by (by right)].
    destruct (user request) as [u|] eqn:Hu; cycle 1.
    { unfold_views. by rewrite Hu. }
    assert (board_advertisement s !! board_advertisement_seq s = None) as Hfresh.
    { destruct (board_advertisement s !! board_advertisement_seq s) eqn:Hx; [|done].
      pose proof (sequence_ahead s Hs _ (ltac:(eauto))). lia. }
    rewrite (handle_add_advertisement_eq s request u form) by done.
    by apply (counts_added s _ (new_advertisement form u (now request))).
  - destruct (edit_advertisement_cases s request pk Hs)
      as [->|(form & ad & p & Had & Hp & ->)]; [done|].
    apply (counts_saved_same s pk ad (construct_instance form ad) p); try done.
    cbn. lia.
  - destruct (delete_advertisement_cases s request pk Hs)
      as [->|(ad & p & Had & Hp & ->)]; [done|].
    by apply counts_deleted.
  - destruct (like_advertisement_cases s request pk Hs)
      as [->|(ad & p & p' & Had & Hp & Hcount & ->)]; [done|].
    by apply (counts_saved_same s pk ad
                (Advertisement.set_likes ad (Advertisement.likes ad + 1)) p).
  - destruct (dislike_advertisement_cases s request pk Hs)
      as [->|(ad & p & p' & Had & Hp & Hcount & ->)]; [done|].
    by apply (counts_saved_same s pk ad
                (Advertisement.set_dislikes ad (Advertisement.dislikes ad + 1)) p).
Qed.

(** X14: in every reachable database the [advertisements_count] of a
    profile is the number of advertisements of its user: of the three
    counters of a profile, this one is kept. *)
Theorem reachable_counts_match (s : DB) : reachable s → counts_match s.
Proof.
  intros Hreach.
  induction Hreach as [|a s Hreach IH Hallowed].
  - intros u p Hp. cbn in Hp. by rewrite lookup_empty in Hp.
  - apply reachable_consistent in Hreach as Hs. destruct a; cbn.
    + by apply handle_counts.
    + unfold Comment_create. unfold_monad. cbn. by case_bool_decide.
    + rewrite User_delete_eq. case_bool_decide; cbn; [|done].
      by apply counts_without_user.
Qed.

(** ** The examples are reachable *)

Lemma allowed_anonymous (r : route) (request : HttpRequest) (s : DB) :
  user request = None → allowed (act_request r request) s.
Proof. intros Hanon u Hu. congruence. Qed.

Lemma allowed_user (r : route) (request : HttpRequest) (s : DB) (u : User) :
  user request = Some u → bool_decide (u ∈ auth_user s) = true →
  allowed (act_request r request) s.
Proof.
  intros Hu Hin v Hv. rewrite Hu in Hv. injection Hv as <-.
  by apply bool_decide_eq_true in Hin.
Qed.

Lemma reachable_two_users_one_advertisement : reachable two_users_one_advertisement.
Proof.
  unfold two_users_one_advertisement, run_all. cbn [foldl].
  apply reachable_run; [apply reachable_run; [apply reachable_run|]|].
  - apply reachable_empty.
  - by apply allowed_anonymous.
  - by apply allowed_anonymous.
  - apply (allowed_user _ _ _ 1%nat); [done|]. vm_compute. reflexivity.
Qed.

Lemma reachable_liked_once : reachable liked_once.
Proof.
  unfold liked_once, liked_once_actions, run_all. cbn [foldl].
  apply reachable_run; [apply reachable_run; [apply reachable_run|]|].
  - apply reachable_empty.
  - by apply allowed_anonymous.
  - apply (allowed_user _ _ _ 1%nat); [done|]. vm_compute. reflexivity.
  - apply (allowed_user _ _ _ 1%nat); [done|]. vm_compute. reflexivity.
Qed.

Lemma reachable_commented : reachable commented.
Proof.
  apply reachable_run; [apply reachable_two_users_one_advertisement | exact I].
Qed.

(** ** The counters after one like *)

(** C1 at a reachable database: a user signs up, posts one
    advertisement and likes it once.  The advertisement has one like,
    the profile counts one advertisement and two likes, so the
    counters do not agree with the rows. *)
Theorem statistics_differ_after_one_like :
  reachable liked_once
  ∧ board_advertisement liked_once !! 1%nat
      = Some (Advertisement.mk "Bike" "Almost new" 1%nat 10 None 1 0)
  ∧ board_userprofile liked_once !! 1%nat = Some (UserProfile.mk 1 2 0)
  ∧ sum_over Advertisement.likes 1%nat liked_once = 1
  ∧ ¬ statistics_match liked_once.
Proof.
  assert (board_userprofile liked_once !! 1%nat = Some (UserProfile.mk 1 2 0)) as Hp
    by (vm_compute; reflexivity).
  assert (sum_over Advertisement.likes 1%nat liked_once = 1) as Hsum
    by (vm_compute; reflexivity).
  split_and!; try done.
  - apply reachable_liked_once.
  - intros Hmatch. destruct (Hmatch 1%nat _ Hp) as (_ & Hlikes & _).
    rewrite Hsum in Hlikes. discriminate.
Qed.

(** ** A user who has an advertisement *)

(** C8 at a reachable database: two users sign up, the first posts an
    advertisement and the second comments on it.  Deleting the first
    user cascades to the advertisement, whose [post_delete] receiver
    reads the profile that the cascade has already removed: it raises
    [UserProfile.DoesNotExist], the transaction is rolled back, and the
    user, the advertisement and the comment on it are all still
    there. *)
Theorem user_deletion_raises_and_is_rolled_back :
  reachable commented
  ∧ 1%nat ∈ auth_user commented
  ∧ board_advertisement commented !! 1%nat
      = Some (Advertisement.mk "Bike" "Almost new" 1%nat 10 None 0 0)
  ∧ board_userprofile commented !! 1%nat = Some (UserProfile.mk 1 0 0)
  ∧ board_comment commented !! 1%nat = Some (Comment.mk 1 2%nat "Still for sale?" 12)
  ∧ User_delete true 1%nat commented = Raised commented (DoesNotExist "UserProfile")
  ∧ run (act_user_delete true 1%nat) commented = commented.
Proof.
  assert (board_advertisement commented !! 1%nat
            = Some (Advertisement.mk "Bike" "Almost new" 1%nat 10 None 0 0)) as Had
    by (vm_compute; reflexivity).
  assert (User_delete true 1%nat commented
            = Raised commented (DoesNotExist "UserProfile")) as Hdel
    by (by apply (User_delete_profile_first_raises 1%nat commented 1%nat _ Had)).
  split_and!.
  - apply reachable_commented.
  - vm_compute. reflexivity.
  - exact Had.
  - vm_compute. reflexivity.
  - vm_compute. reflexivity.
  - exact Hdel.
  - cbn [run]. by rewrite Hdel.
Qed.

(** ** The theorems at the examples *)

Lemma receivers_count_on_every_save_witness :
  ∃ p',
    board_userprofile (handle (route_edit_advertisement 1) (POST (Some 1%nat)) liked_once).1
      !! 1%nat = Some p'
    ∧ UserProfile.total_likes p' = 2 + 1.
Proof.
  destruct receivers_count_on_every_save as [_ Hedit].
  destruct (Hedit liked_once (POST (Some 1%nat)) 1%nat bike
              (Advertisement.mk "Bike" "Almost new" 1%nat 10 None 1 0)
              (UserProfile.mk 1 2 0))
    as (ad' & p' & _ & _ & _ & Hp' & Hlikes & _).
  - reflexivity.
  - reflexivity.
  - reflexivity.
  - vm_compute. reflexivity.
  - vm_compute. reflexivity.
  - exists p'. split; [exact Hp'|]. apply Hlikes. cbn. lia.
Defined.

Lemma like_adds_one_and_total_two_witness :
  ∃ p p',
    board_userprofile two_users_one_advertisement !! 1%nat = Some p
    ∧ board_userprofile
        (handle (route_like_advertisement 1) (GET (Some 2%nat))
           two_users_one_advertisement).1 !! 1%nat = Some p'
    ∧ UserProfile.total_likes p' = UserProfile.total_likes p + 2.
Proof.
  destruct (like_adds_one_and_total_two two_users_one_advertisement
              (GET (Some 2%nat)) 2%nat 1%nat
              (Advertisement.mk "Bike" "Almost new" 1%nat 10 None 0 0))
    as (p & Hp & (ad' & p' & _ & _ & _ & _ & Hp' & Htotal) & _).
  - apply reachable_two_users_one_advertisement.
  - reflexivity.
  - vm_compute. reflexivity.
  - exists p, p'. split; [exact Hp|]. split; [exact Hp'|exact Htotal].
Defined.

Lemma add_advertisement_creates_one_row_witness :
  size (board_advertisement
          (handle route_add_advertisement (POST (Some 2%nat))
             two_users_one_advertisement).1)
    = S (size (board_advertisement two_users_one_advertisement)).
Proof.
  destruct (add_advertisement_creates_one_row two_users_one_advertisement
              (POST (Some 2%nat))) as [Hadd _].
  - apply reachable_two_users_one_advertisement.
  - destruct (Hadd 2%nat bike) as (pk & ad & _ & _ & _ & Hsize & _).
    + reflexivity.
    + reflexivity.
    + reflexivity.
    + exact Hsize.
Defined.

(** * Further properties of the views and the receivers *)

(** ** The receivers touch the profile table only *)

Lemma profiles_only_refl (s : DB) : profiles_only s s.
Proof. exists (board_userprofile s). by rewrite with_profiles_id. Qed.

Lemma profiles_only_trans (s1 s2 s3 : DB) :
  profiles_only s1 s2 → profiles_only s2 s3 → profiles_only s1 s3.
Proof.
  intros [m1 ->] [m2 ->]. exists m2. by rewrite with_profiles_twice.
Qed.

Lemma profiles_only_save (s : DB) (u : User) (p : UserProfile.t) :
  profiles_only s (with_profiles s (<[u := p]> (board_userprofile s))).
Proof. by eexists. Qed.

Lemma post_save_send_profiles_only
    (s : DB) (instance : Advertisement.t) (created : bool) :
  profiles_only s (db_of (post_save_send instance created s)).
Proof.
  destruct (board_userprofile s !! Advertisement.author instance) as [p|] eqn:Hp.
  - rewrite post_save_send_profile by (right; rewrite Hp; eauto). cbn.
    apply profiles_only_save.
  - destruct created.
    + rewrite post_save_send_profile by (by left). cbn. apply profiles_only_save.
    + rewrite post_save_send_no_profile by done.
      destruct (_ || _); cbn; apply profiles_only_refl.
Qed.

(** What is left of a request that saved the instance [ad] under the
    key [pk] of a row that exists: the row, and changes of profiles. *)
Lemma save_update_then_profiles
    (s : DB) (pk : nat) (old ad : Advertisement.t) :
  board_advertisement s !! pk = Some old →
  profiles_only
    (with_advertisements s (<[pk := ad]> (board_advertisement s))
       (board_advertisement_seq s))
    (db_of (Advertisement_save (Some pk) ad s)).
Proof.
  intros Hold. rewrite (Advertisement_save_update s pk old ad Hold).
  pose proof (post_save_send_profiles_only
                (with_advertisements s (<[pk := ad]> (board_advertisement s))
                   (board_advertisement_seq s)) ad false) as Hsend.
  by destruct (post_save_send ad false _).
Qed.

(** ** Requests that keep the rows *)

Lemma like_advertisement_frame (s : DB) (request : HttpRequest) (pk : nat) :
  (handle (route_like_advertisement pk) request s).1 = s
  ∨ ∃ ad,
      board_advertisement s !! pk = Some ad
      ∧ profiles_only
          (with_advertisements s
             (<[pk := Advertisement.set_likes ad (Advertisement.likes ad + 1)]>
                (board_advertisement s))
             (board_advertisement_seq s))
          (handle (route_like_advertisement pk) request s).1.
Proof.
  destruct (user request) as [u|] eqn:Hu; cycle 1.
  { left. unfold_views. by rewrite Hu. }
  destruct (board_advertisement s !! pk) as [ad|] eqn:Had; cycle 1.
  { left. unfold_views. rewrite Hu. unfold get_object_or_404. unfold_monad.
    by rewrite Had. }
  right. exists ad. split; [done|].
  pose proof (save_update_then_profiles s pk ad
                (Advertisement.set_likes ad (Advertisement.likes ad + 1)) Had) as Hsave.
  unfold handle, respond, view_of, like_advertisement, login_required.
  rewrite Hu. unfold bind at 1, get_object_or_404, bind at 1, gets. rewrite Had.
  cbn -[Advertisement.set_likes]. unfold bind at 1.
  destruct (Advertisement_save _ _ s) as [s1 k|s1 e]; cbn in Hsave; cycle 1.
  { by destruct e. }
  unfold bind, UserProfile_get, gets, bind, UserProfile_save, modify, ret, raise.
  destruct (board_userprofile s1 !! _); cbn; [|done].
  eapply profiles_only_trans; [exact Hsave | apply profiles_only_save].
Qed.

Lemma dislike_advertisement_frame (s : DB) (request : HttpRequest) (pk : nat) :
  (handle (route_dislike_advertisement pk) request s).1 = s
  ∨ ∃ ad,
      board_advertisement s !! pk = Some ad
      ∧ profiles_only
          (with_advertisements s
             (<[pk := Advertisement.set_dislikes ad (Advertisement.dislikes ad + 1)]>
                (board_advertisement s))
             (board_advertisement_seq s))
          (handle (route_dislike_advertisement pk) request s).1.
Proof.
  destruct (user request) as [u|] eqn:Hu; cycle 1.
  { left. unfold_views. by rewrite Hu. }
  destruct (board_advertisement s !! pk) as [ad|] eqn:Had; cycle 1.
  { left. unfold_views. rewrite Hu. unfold get_object_or_404. unfold_monad.
    by rewrite Had. }
  right. exists ad. split; [done|].
  pose proof (save_update_then_profiles s pk ad
                (Advertisement.set_dislikes ad (Advertisement.dislikes ad + 1)) Had)
    as Hsave.
  unfold handle, respond, view_of, dislike_advertisement, login_required.
  rewrite Hu. unfold bind at 1, get_object_or_404, bind at 1, gets. rewrite Had.
  cbn -[Advertisement.set_dislikes]. unfold bind at 1.
  destruct (Advertisement_save _ _ s) as [s1 k|s1 e]; cbn in Hsave; cycle 1.
  { by destruct e. }
  unfold bind, UserProfile_get, gets, bind, UserProfile_save, modify, ret, raise.
  destruct (board_userprofile s1 !! _); cbn; [|done].
  eapply profiles_only_trans; [exact Hsave | apply profiles_only_save].
Qed.

Lemma edit_advertisement_frame (s : DB) (request : HttpRequest) (pk : nat) :
  (handle (route_edit_advertisement pk) request s).1 = s
  ∨ ∃ form ad,
      board_advertisement s !! pk = Some ad
      ∧ user request = Some (Advertisement.author ad)
      ∧ POST_AdvertisementForm request = Some form
      ∧ profiles_only
          (with_advertisements s
             (<[pk := construct_instance form ad]> (board_advertisement s))
             (board_advertisement_seq s))
          (handle (route_edit_advertisement pk) request s).1.
Proof.
  destruct (user request) as [u|] eqn:Hu; cycle 1.
  { left. unfold_views. by rewrite Hu. }
  destruct (board_advertisement s !! pk) as [ad|] eqn:Had; cycle 1.
  { left. unfold_views. rewrite Hu. unfold get_object_or_404. unfold_monad.
    by rewrite Had. }
  destruct (decide (Advertisement.author ad = u)) as [<-|Hne]; cycle 1.
  { left. unfold_views. rewrite Hu. unfold get_object_or_404. unfold_monad.
    rewrite Had. cbn. by rewrite bool_decide_eq_true_2 by done. }
  destruct (is_POST request) eqn:Hpost; cycle 1.
  { left. unfold_views. rewrite Hu. unfold get_object_or_404. unfold_monad.
    rewrite Had. cbn.
    rewrite bool_decide_eq_false_2 by (intros H; by apply H). by rewrite Hpost. }
  destruct (POST_AdvertisementForm request) as [form|] eqn:Hform; cycle 1.
  { left. unfold_views. rewrite Hu. unfold get_object_or_404. unfold_monad.
    rewrite Had. cbn.
    rewrite bool_decide_eq_false_2 by (intros H; by apply H).
    by rewrite Hpost, Hform. }
  right. exists form, ad. split; [done|]. split; [done|]. split; [done|].
  pose proof (save_update_then_profiles s pk ad (construct_instance form ad) Had)
    as Hsave.
  unfold handle, respond, view_of, edit_advertisement, login_required.
  rewrite Hu. unfold bind at 1, get_object_or_404, bind at 1, gets. rewrite Had. cbn.
  rewrite bool_decide_eq_false_2 by (intros H; by apply H).
  rewrite Hpost, Hform. unfold bind at 1.
  destruct (Advertisement_save _ _ s) as [s1 k|s1 e]; cbn in Hsave; cycle 1.
  { by destruct e. }
  done.
Qed.

(** X2: a like, a dislike or an edit request never adds or removes a
    row: in any database and for any request, the advertisement table
    has the same keys afterwards, every advertisement other than [pk]
    is what it was, and the users, the comments and the sequences are
    untouched. *)
Theorem like_dislike_edit_keep_rows (s : DB) (request : HttpRequest) (pk : nat) (r : route) :
  r = route_like_advertisement pk ∨ r = route_dislike_advertisement pk
    ∨ r = route_edit_advertisement pk →
  dom (board_advertisement (handle r request s).1) = dom (board_advertisement s)
  ∧ (∀ k, k ≠ pk →
       board_advertisement (handle r request s).1 !! k = board_advertisement s !! k)
  ∧ auth_user (handle r request s).1 = auth_user s
  ∧ board_comment (handle r request s).1 = board_comment s
  ∧ board_advertisement_seq (handle r request s).1 = board_advertisement_seq s.
Proof.
  assert (∀ s' ad x,
            board_advertisement s !! pk = Some ad →
            profiles_only
              (with_advertisements s (<[pk := x]> (board_advertisement s))
                 (board_advertisement_seq s)) s' →
            dom (board_advertisement s') = dom (board_advertisement s)
            ∧ (∀ k, k ≠ pk → board_advertisement s' !! k = board_advertisement s !! k)
            ∧ auth_user s' = auth_user s
            ∧ board_comment s' = board_comment s
            ∧ board_advertisement_seq s' = board_advertisement_seq s) as Hframe.
  { intros s' ad x Had [m ->]. cbn. split_and!; try done.
    - rewrite dom_insert_L. apply elem_of_dom_2 in Had.
      apply set_eq. intros k. rewrite elem_of_union, elem_of_singleton.
      split; [intros [Hk|Hk]; [by subst k|done] | by right].
    - intros k Hk. by rewrite lookup_insert_ne. }
  intros [-> | [-> | ->]].
  - destruct (like_advertisement_frame s request pk) as [->|(ad & Had & Hp)]; [done|].
    by apply (Hframe _ ad _ Had Hp).
  - destruct (dislike_advertisement_frame s request pk) as [->|(ad & Had & Hp)]; [done|].
    by apply (Hframe _ ad _ Had Hp).
  - destruct (edit_advertisement_frame s request pk)
      as [->|(form & ad & Had & _ & _ & Hp)]; [done|].
    by apply (Hframe _ ad _ Had Hp).
Qed.

Lemma like_dislike_edit_keep_rows_witness :
  dom (board_advertisement
         (handle (route_like_advertisement 1) (GET (Some 2%nat))
            two_users_one_advertisement).1)
    = dom (board_advertisement two_users_one_advertisement).
Proof.
  apply (like_dislike_edit_keep_rows two_users_one_advertisement (GET (Some 2%nat))
           1 (route_like_advertisement 1)).
  left. reflexivity.
Defined.

(** ** A write that an exception does not undo *)

(** X3: when the author of an advertisement has no profile row, a like
    or a dislike request still saves the incremented counter, and is
    then answered by a server error: the receiver raises
    [UserProfile.DoesNotExist] after the row was committed, and nothing
    rolls the row back. *)
Theorem like_without_profile_keeps_the_increment
    (s : DB) (request : HttpRequest) (u : User) (pk : nat) (ad : Advertisement.t) :
  user request = Some u →
  board_advertisement s !! pk = Some ad →
  board_userprofile s !! Advertisement.author ad = None →
  0 ≤ Advertisement.likes ad →
  0 ≤ Advertisement.dislikes ad →
  handle (route_like_advertisement pk) request s
    = (with_advertisements s
         (<[pk := Advertisement.set_likes ad (Advertisement.likes ad + 1)]>
            (board_advertisement s))
         (board_advertisement_seq s),
       server_error (DoesNotExist "UserProfile"))
  ∧ handle (route_dislike_advertisement pk) request s
    = (with_advertisements s
         (<[pk := Advertisement.set_dislikes ad (Advertisement.dislikes ad + 1)]>
            (board_advertisement s))
         (board_advertisement_seq s),
       server_error (DoesNotExist "UserProfile")).
Proof.
  intros Hu Had Hnone Hl Hd. split.
  - unfold handle, respond, view_of, like_advertisement, login_required.
    rewrite Hu. unfold bind at 1, get_object_or_404, bind at 1, gets. rewrite Had.
    cbn -[Advertisement.set_likes]. unfold bind at 1.
    rewrite (Advertisement_save_update s pk ad _ Had).
    rewrite post_save_send_no_profile by done. cbn.
    rewrite (bool_decide_eq_true_2 (Advertisement.likes ad + 1 > 0)) by lia. done.
  - unfold handle, respond, view_of, dislike_advertisement, login_required.
    rewrite Hu. unfold bind at 1, get_object_or_404, bind at 1, gets. rewrite Had.
    cbn -[Advertisement.set_dislikes]. unfold bind at 1.
    rewrite (Advertisement_save_update s pk ad _ Had).
    rewrite post_save_send_no_profile by done. cbn.
    rewrite (bool_decide_eq_true_2 (Advertisement.dislikes ad + 1 > 0)) by lia.
    by rewrite orb_true_r.
Qed.

Lemma like_without_profile_keeps_the_increment_witness :
  board_advertisement
    (handle (route_like_advertisement 1) (GET (Some 1%nat)) orphan_advertisement).1
    !! 1%nat = Some (Advertisement.mk "Bike" "Almost new" 1%nat 10 None 1 0)
  ∧ (handle (route_like_advertisement 1) (GET (Some 1%nat)) orphan_advertisement).2
    = server_error (DoesNotExist "UserProfile").
Proof.
  destruct (like_without_profile_keeps_the_increment orphan_advertisement
              (GET (Some 1%nat)) 1%nat 1%nat
              (Advertisement.mk "Bike" "Almost new" 1%nat 10 None 0 0)) as [Hlike _].
  - reflexivity.
  - vm_compute. reflexivity.
  - vm_compute. reflexivity.
  - cbn. lia.
  - cbn. lia.
  - rewrite Hlike. split; [vm_compute; reflexivity | reflexivity].
Defined.

(** ** Profiles belong to users *)

Lemma profiles_of_users_insert (s s' : DB) (u : User) (p : UserProfile.t) :
  profiles_of_users s →
  u ∈ auth_user s →
  auth_user s' = auth_user s →
  board_userprofile s' = <[u := p]> (board_userprofile s) →
  profiles_of_users s'.
Proof.
  intros Hs Hu Husers Hprofiles v Hv. rewrite Husers. rewrite Hprofiles in Hv.
  destruct (decide (u = v)) as [<-|Hne]; [done|].
  rewrite lookup_insert_ne in Hv by done. by apply Hs.
Qed.

Lemma handle_profiles_of_users (r : route) (request : HttpRequest) (s : DB) :
  consistent s →
  allowed (act_request r request) s →
  profiles_of_users s →
  profiles_of_users (handle r request s).1.
Proof.
  intros Hs Hallowed Hprof. destruct r.
  - done.
  - unfold handle, respond, view_of, signup.
    destruct (is_POST request); [|done].
    destruct (POST_SignUpForm request); [|done].
    unfold User_create, UserProfile_create, UserProfile_save. unfold_monad. cbn.
    destruct (_ !! _) eqn:Hp; cbn.
    + intros v Hv. cbn in *. apply elem_of_union. right. by apply Hprof.
    + intros v Hv. cbn in *. apply elem_of_union.
      destruct (decide (auth_user_seq s = v)) as [<-|Hne].
      * left. by apply elem_of_singleton.
      * right. rewrite lookup_insert_ne in Hv by done. by apply Hprof.
  - done.
  - by rewrite advertisement_list_unchanged.
  - by rewrite advertisement_detail_unchanged.
  - destruct (is_POST request) eqn:Hpost;
      [|by rewrite handle_add_advertisement_no_write by (by left)].
    destruct (POST_AdvertisementForm request) as [form|] eqn:Hform;
      [|by rewrite handle_add_advertisement_no_write by (by right)].
    destruct (user request) as [u|] eqn:Hu; cycle 1.
    { unfold_views. by rewrite Hu. }
    assert (board_advertisement s !! board_advertisement_seq s = None) as Hfresh.
    { destruct (board_advertisement s !! board_advertisement_seq s) eqn:Hx; [|done].
      pose proof (sequence_ahead s Hs _ (ltac:(eauto))). lia. }
    rewrite (handle_add_advertisement_eq s request u form) by done.
    eapply (profiles_of_users_insert s _ u); [done| |done|done]. by apply Hallowed.
  - destruct (edit_advertisement_cases s request pk Hs)
      as [->|(form & ad & p & Had & Hp & ->)]; [done|].
    eapply (profiles_of_users_insert s _ (Advertisement.author ad)); [done| |done|done].
    by apply (authors_live s Hs pk).
  - destruct (delete_advertisement_cases s request pk Hs)
      as [->|(ad & p & Had & Hp & ->)]; [done|].
    eapply (profiles_of_users_insert s _ (Advertisement.author ad)); [done| |done|done].
    by apply (authors_live s Hs pk).
  - destruct (like_advertisement_cases s request pk Hs)
      as [->|(ad & p & p' & Had & Hp & _ & ->)]; [done|].
    eapply (profiles_of_users_insert s _ (Advertisement.author ad)); [done| |done|done].
    by apply (authors_live s Hs pk).
  - destruct (dislike_advertisement_cases s request pk Hs)
      as [->|(ad & p & p' & Had & Hp & _ & ->)]; [done|].
    eapply (profiles_of_users_insert s _ (Advertisement.author ad)); [done| |done|done].
    by apply (authors_live s Hs pk).
Qed.

Lemma reachable_profiles_of_users (s : DB) : reachable s → profiles_of_users s.
Proof.
  intros Hreach. induction Hreach as [|a s Hreach IH Hallowed].
  - intros u [p Hp]. cbn in Hp. by rewrite lookup_empty in Hp.
  - apply reachable_consistent in Hreach as Hs. destruct a; cbn.
    + by apply handle_profiles_of_users.
    + unfold Comment_create. unfold_monad. cbn. by case_bool_decide.
    + rewrite User_delete_eq. case_bool_decide; cbn; [|done].
      intros v [p Hv]. cbn in *. apply lookup_delete_Some in Hv as [Hne Hv].
      apply elem_of_difference. split; [apply IH; eauto|].
      by intros ?%elem_of_singleton.
Qed.

(** ** Signing up *)

(** X4: in a reachable database a POST to the sign-up view with a valid
    form never fails: it adds one user, under a key that no user and no
    profile had, gives it a profile with the three counters at zero,
    leaves the advertisements and the comments alone and redirects to
    the board.  Without a POST or with a form that is not valid, in any
    database, the form is rendered and nothing is written. *)
Theorem signup_adds_a_user_and_its_profile (s : DB) (request : HttpRequest) :
  (reachable s →
   is_POST request = true →
   POST_SignUpForm request = true →
   (auth_user_seq s ∉ auth_user s)
   ∧ board_userprofile s !! auth_user_seq s = None
   ∧ handle route_signup request s
     = (mkDB ({[auth_user_seq s]} ∪ auth_user s) (S (auth_user_seq s))
          (board_advertisement s) (board_advertisement_seq s)
          (board_comment s) (board_comment_seq s)
          (<[auth_user_seq s := UserProfile.mk 0 0 0]> (board_userprofile s)),
        redirect url_board))
  ∧ (is_POST request = false ∨ POST_SignUpForm request = false →
     handle route_signup request s = (s, render "signup.html" ctx_form)).
Proof.
  split.
  - intros Hreach Hpost Hvalid.
    apply reachable_consistent in Hreach as Hs.
    apply reachable_profiles_of_users in Hreach as Hprof.
    assert (auth_user_seq s ∉ auth_user s) as Hfresh.
    { intros Hin. pose proof (users_behind s Hs _ Hin). lia. }
    assert (board_userprofile s !! auth_user_seq s = None) as Hnone.
    { destruct (board_userprofile s !! auth_user_seq s) eqn:Hp; [|done].
      destruct Hfresh. apply Hprof. eauto. }
    split; [done|]. split; [done|].
    unfold handle, respond, view_of, signup. rewrite Hpost, Hvalid.
    unfold User_create, UserProfile_create, UserProfile_save. unfold_monad. cbn.
    destruct (_ !! _) eqn:Hp; [|done]. cbn in Hp. congruence.
  - intros Hno. unfold handle, respond, view_of, signup.
    destruct (is_POST request); [|done].
    destruct Hno as [?|Hno]; [done|]. by rewrite Hno.
Qed.

Lemma signup_adds_a_user_and_its_profile_witness :
  board_userprofile
    (handle route_signup (POST None) two_users_one_advertisement).1 !! 3%nat
    = Some (UserProfile.mk 0 0 0)
  ∧ handle route_signup (GET None) two_users_one_advertisement
    = (two_users_one_advertisement, render "signup.html" ctx_form).
Proof.
  destruct (signup_adds_a_user_and_its_profile two_users_one_advertisement (POST None))
    as [Hpost _].
  destruct (signup_adds_a_user_and_its_profile two_users_one_advertisement (GET None))
    as [_ Hget].
  split.
  - destruct Hpost as (_ & _ & ->).
    + apply reachable_two_users_one_advertisement.
    + reflexivity.
    + reflexivity.
    + vm_compute. reflexivity.
  - apply Hget. left. reflexivity.
Defined.

(** ** Deleting an advertisement *)

(** X5: in a reachable database, a POST of the author to the delete
    view removes the advertisement and every comment on it, keeps all
    other advertisements and comments, takes one off the
    [advertisements_count] of the author and leaves [total_likes] and
    [total_dislikes] as they were, so the likes of a deleted
    advertisement stay counted; the answer is the redirect to the list.
    Any other method shows the confirmation page and writes nothing. *)
Theorem delete_by_author_removes_row_and_comments
    (s : DB) (request : HttpRequest) (pk : nat) (ad : Advertisement.t) :
  reachable s →
  user request = Some (Advertisement.author ad) →
  board_advertisement s !! pk = Some ad →
  (is_POST request = true →
   ∃ p p',
     board_userprofile s !! Advertisement.author ad = Some p
     ∧ (handle (route_delete_advertisement pk) request s).2
         = redirect url_advertisement_list
     ∧ board_advertisement (handle (route_delete_advertisement pk) request s).1
         = delete pk (board_advertisement s)
     ∧ board_comment (handle (route_delete_advertisement pk) request s).1
         = filter (λ kc, Comment.advertisement kc.2 ≠ pk) (board_comment s)
     ∧ board_userprofile (handle (route_delete_advertisement pk) request s).1
         = <[Advertisement.author ad := p']> (board_userprofile s)
     ∧ UserProfile.advertisements_count p' = UserProfile.advertisements_count p - 1
     ∧ UserProfile.total_likes p' = UserProfile.total_likes p
     ∧ UserProfile.total_dislikes p' = UserProfile.total_dislikes p)
  ∧ (is_POST request = false →
     handle (route_delete_advertisement pk) request s
       = (s, render "board/delete_advertisement_confirm.html"
               (ctx_advertisement pk ad))).
Proof.
  intros Hreach Hu Had. apply reachable_consistent in Hreach as Hs. split.
  - intros Hpost. destruct (authors_have_profiles s Hs pk ad Had) as [p Hp].
    exists p. eexists. split; [done|].
    rewrite (handle_delete_advertisement_eq s request pk ad p) by done. cbn.
    by split_and!.
  - intros Hget. unfold_views. rewrite Hu.
    unfold get_object_or_404. unfold_monad. rewrite Had. cbn.
    rewrite bool_decide_eq_false_2 by (intros H; by apply H). by rewrite Hget.
Qed.

Lemma delete_by_author_removes_row_and_comments_witness :
  board_advertisement
    (handle (route_delete_advertisement 1) (POST (Some 1%nat)) commented).1 = ∅
  ∧ board_comment
      (handle (route_delete_advertisement 1) (POST (Some 1%nat)) commented).1 = ∅.
Proof.
  destruct (delete_by_author_removes_row_and_comments commented (POST (Some 1%nat)) 1
              (Advertisement.mk "Bike" "Almost new" 1%nat 10 None 0 0)) as [Hpost _].
  - apply reachable_commented.
  - reflexivity.
  - vm_compute. reflexivity.
  - destruct Hpost as (p & p' & _ & _ & Hads & Hcomments & _); [reflexivity|].
    rewrite Hads, Hcomments. split; vm_compute; reflexivity.
Defined.

(** ** Each reaction also counts the other one *)

(** X6: the two reaction receivers both run on the save of a like and
    on the save of a dislike.  So, in a reachable database, a like
    request on an advertisement that already has a dislike adds one to
    the [total_dislikes] of its author as well, and a dislike request
    on an advertisement that already has a like adds one to
    [total_likes]; with the other counter at zero the other total is
    kept. *)
Theorem reaction_counts_the_other_counter
    (s : DB) (request : HttpRequest) (u : User) (pk : nat) (ad : Advertisement.t) :
  reachable s →
  user request = Some u →
  board_advertisement s !! pk = Some ad →
  ∃ p p1 p2,
    board_userprofile s !! Advertisement.author ad = Some p
    ∧ board_userprofile (handle (route_like_advertisement pk) request s).1
        !! Advertisement.author ad = Some p1
    ∧ board_userprofile (handle (route_dislike_advertisement pk) request s).1
        !! Advertisement.author ad = Some p2
    ∧ (Advertisement.dislikes ad > 0 →
       UserProfile.total_dislikes p1 = UserProfile.total_dislikes p + 1)
    ∧ (Advertisement.dislikes ad = 0 →
       UserProfile.total_dislikes p1 = UserProfile.total_dislikes p)
    ∧ (Advertisement.likes ad > 0 →
       UserProfile.total_likes p2 = UserProfile.total_likes p + 1)
    ∧ (Advertisement.likes ad = 0 →
       UserProfile.total_likes p2 = UserProfile.total_likes p).
Proof.
  intros Hreach Hu Had. apply reachable_consistent in Hreach as Hs.
  destruct (authors_have_profiles s Hs pk ad Had) as [p Hp].
  exists p.
  rewrite (handle_like_advertisement_eq s request u pk ad p) by done.
  rewrite (handle_dislike_advertisement_eq s request u pk ad p) by done.
  cbn. rewrite !lookup_insert_eq. do 2 eexists.
  split; [done|]. split; [done|]. split; [done|]. cbn.
  split_and!; intros H; case_bool_decide; lia.
Qed.

Lemma reaction_counts_the_other_counter_witness :
  ∃ p p2,
    board_userprofile liked_once !! 1%nat = Some p
    ∧ board_userprofile
        (handle (route_dislike_advertisement 1) (GET (Some 1%nat)) liked_once).1
        !! 1%nat = Some p2
    ∧ UserProfile.total_likes p2 = UserProfile.total_likes p + 1.
Proof.
  destruct (reaction_counts_the_other_counter liked_once (GET (Some 1%nat)) 1%nat 1%nat
              (Advertisement.mk "Bike" "Almost new" 1%nat 10 None 1 0))
    as (p & p1 & p2 & Hp & _ & Hp2 & _ & _ & Hlikes & _).
  - apply reachable_liked_once.
  - reflexivity.
  - vm_compute. reflexivity.
  - exists p, p2. split; [exact Hp|]. split; [exact Hp2|]. apply Hlikes. cbn. lia.
Defined.

(** ** Any number of likes *)

Lemma like_all_consistent
    (requests : list HttpRequest) (pk : nat) (s : DB) (ad : Advertisement.t)
    (p : UserProfile.t) :
  consistent s →
  Forall (λ request, is_Some (user request)) requests →
  board_advertisement s !! pk = Some ad →
  board_userprofile s !! Advertisement.author ad = Some p →
  ∃ ad' p',
    board_advertisement (like_all pk requests s) !! pk = Some ad'
    ∧ Advertisement.author ad' = Advertisement.author ad
    ∧ Advertisement.likes ad' = Advertisement.likes ad + Z.of_nat (length requests)
    ∧ Advertisement.dislikes ad' = Advertisement.dislikes ad
    ∧ board_userprofile (like_all pk requests s) !! Advertisement.author ad = Some p'
    ∧ UserProfile.total_likes p'
        = UserProfile.total_likes p + 2 * Z.of_nat (length requests)
    ∧ UserProfile.advertisements_count p' = UserProfile.advertisements_count p.
Proof.
  intros Hs Hall. revert s ad p Hs.
  induction Hall as [|request requests [u Hu] Hall IH]; intros s ad p Hs Had Hp.
  - exists ad, p. cbn. split_and!; try done; lia.
  - unfold like_all. cbn [foldl]. fold (like_all pk requests).
    pose proof (like_advertisement_consistent s request pk Hs) as Hs'.
    destruct (counters_not_negative s Hs pk ad Had) as [Hl Hd].
    rewrite (handle_like_advertisement_eq s request u pk ad p) in Hs' |- * by done.
    cbn [fst] in *.
    set (liked := Advertisement.set_likes ad (Advertisement.likes ad + 1)) in *.
    set (q := UserProfile.set_total_likes (profile_after_save liked false p)
                (UserProfile.total_likes (profile_after_save liked false p) + 1)) in *.
    destruct (IH _ liked q Hs')
      as (ad' & p' & Had' & Hauthor & Hlikes & Hdislikes & Hp' & Htotal & Hcount).
    { cbn. apply lookup_insert_eq. }
    { cbn. apply lookup_insert_eq. }
    exists ad', p'. cbn in *.
    rewrite bool_decide_eq_true_2 in Htotal by lia.
    split_and!; try done; lia.
Qed.

(** X7: nothing limits how often an advertisement is liked, or by whom.
    In a reachable database, after the like requests of any list of
    authenticated users on one advertisement, the author among them or
    not, its [likes] have gone up by the number of requests and the
    [total_likes] of its author by twice that number. *)
Theorem likes_add_up
    (s : DB) (requests : list HttpRequest) (pk : nat) (ad : Advertisement.t) :
  reachable s →
  Forall (λ request, is_Some (user request)) requests →
  board_advertisement s !! pk = Some ad →
  ∃ p ad' p',
    board_userprofile s !! Advertisement.author ad = Some p
    ∧ board_advertisement (like_all pk requests s) !! pk = Some ad'
    ∧ Advertisement.likes ad' = Advertisement.likes ad + Z.of_nat (length requests)
    ∧ board_userprofile (like_all pk requests s) !! Advertisement.author ad = Some p'
    ∧ UserProfile.total_likes p'
        = UserProfile.total_likes p + 2 * Z.of_nat (length requests).
Proof.
  intros Hreach Hall Had. apply reachable_consistent in Hreach as Hs.
  destruct (authors_have_profiles s Hs pk ad Had) as [p Hp].
  destruct (like_all_consistent requests pk s ad p Hs Hall Had Hp)
    as (ad' & p' & Had' & _ & Hlikes & _ & Hp' & Htotal & _).
  exists p, ad', p'. by split_and!.
Qed.

Lemma likes_add_up_witness :
  ∃ ad' p',
    board_advertisement
      (like_all 1 [GET (Some 1%nat); GET (Some 2%nat); GET (Some 2%nat)]
         two_users_one_advertisement) !! 1%nat = Some ad'
    ∧ Advertisement.likes ad' = 3
    ∧ board_userprofile
        (like_all 1 [GET (Some 1%nat); GET (Some 2%nat); GET (Some 2%nat)]
           two_users_one_advertisement) !! 1%nat = Some p'
    ∧ UserProfile.total_likes p' = 6.
Proof.
  destruct (likes_add_up two_users_one_advertisement
              [GET (Some 1%nat); GET (Some 2%nat); GET (Some 2%nat)] 1
              (Advertisement.mk "Bike" "Almost new" 1%nat 10 None 0 0))
    as (p & ad' & p' & Hp & Had' & Hlikes & Hp' & Htotal).
  - apply reachable_two_users_one_advertisement.
  - repeat constructor; by eexists.
  - vm_compute. reflexivity.
  - exists ad', p'. split; [exact Had'|]. split; [exact Hlikes|]. split; [exact Hp'|].
    rewrite Htotal.
    assert (p = UserProfile.mk 1 0 0) as ->.
    { cbn in Hp. vm_compute in Hp. by injection Hp as <-. }
    reflexivity.
Defined.

(** ** Server errors *)

Lemma add_advertisement_no_server_error (s : DB) (request : HttpRequest) (e : exn) :
  consistent s → (handle route_add_advertisement request s).2 ≠ server_error e.
Proof.
  intros Hs.
  destruct (user request) as [u|] eqn:Hu; cycle 1.
  { unfold_views. by rewrite Hu. }
  destruct (is_POST request) eqn:Hpost; cycle 1.
  { unfold_views. by rewrite Hu, Hpost. }
  destruct (POST_AdvertisementForm request) as [form|] eqn:Hform; cycle 1.
  { unfold_views. by rewrite Hu, Hpost, Hform. }
  assert (board_advertisement s !! board_advertisement_seq s = None) as Hfresh.
  { destruct (board_advertisement s !! board_advertisement_seq s) eqn:Hx; [|done].
    pose proof (sequence_ahead s Hs _ (ltac:(eauto))). lia. }
  by rewrite (handle_add_advertisement_eq s request u form).
Qed.

Lemma edit_advertisement_no_server_error
    (s : DB) (request : HttpRequest) (pk : nat) (e : exn) :
  consistent s → (handle (route_edit_advertisement pk) request s).2 ≠ server_error e.
Proof.
  intros Hs.
  destruct (user request) as [u|] eqn:Hu; cycle 1.
  { unfold_views. by rewrite Hu. }
  destruct (board_advertisement s !! pk) as [ad|] eqn:Had; cycle 1.
  { unfold_views. rewrite Hu. unfold get_object_or_404. unfold_monad.
    by rewrite Had. }
  destruct (decide (Advertisement.author ad = u)) as [<-|Hne]; cycle 1.
  { unfold_views. rewrite Hu. unfold get_object_or_404. unfold_monad.
    rewrite Had. cbn. by rewrite bool_decide_eq_true_2 by done. }
  destruct (is_POST request) eqn:Hpost; cycle 1.
  { unfold_views. rewrite Hu. unfold get_object_or_404. unfold_monad.
    rewrite Had. cbn.
    rewrite bool_decide_eq_false_2 by (intros H; by apply H). by rewrite Hpost. }
  destruct (POST_AdvertisementForm request) as [form|] eqn:Hform; cycle 1.
  { unfold_views. rewrite Hu. unfold get_object_or_404. unfold_monad.
    rewrite Had. cbn.
    rewrite bool_decide_eq_false_2 by (intros H; by apply H).
    by rewrite Hpost, Hform. }
  destruct (authors_have_profiles s Hs pk ad Had) as [p Hp].
  by rewrite (handle_edit_advertisement_eq s request pk form ad p).
Qed.

Lemma delete_advertisement_no_server_error
    (s : DB) (request : HttpRequest) (pk : nat) (e : exn) :
  consistent s → (handle (route_delete_advertisement pk) request s).2 ≠ server_error e.
Proof.
  intros Hs.
  destruct (user request) as [u|] eqn:Hu; cycle 1.
  { unfold_views. by rewrite Hu. }
  destruct (board_advertisement s !! pk) as [ad|] eqn:Had; cycle 1.
  { unfold_views. rewrite Hu. unfold get_object_or_404. unfold_monad.
    by rewrite Had. }
  destruct (decide (Advertisement.author ad = u)) as [<-|Hne]; cycle 1.
  { unfold_views. rewrite Hu. unfold get_object_or_404. unfold_monad.
    rewrite Had. cbn. by rewrite bool_decide_eq_true_2 by done. }
  destruct (is_POST request) eqn:Hpost; cycle 1.
  { unfold_views. rewrite Hu. unfold get_object_or_404. unfold_monad.
    rewrite Had. cbn.
    rewrite bool_decide_eq_false_2 by (intros H; by apply H). by rewrite Hpost. }
  destruct (authors_have_profiles s Hs pk ad Had) as [p Hp].
  by rewrite (handle_delete_advertisement_eq s request pk ad p).
Qed.

Lemma reaction_no_server_error
    (s : DB) (request : HttpRequest) (pk : nat) (e : exn) :
  consistent s →
  (handle (route_like_advertisement pk) request s).2 ≠ server_error e
  ∧ (handle (route_dislike_advertisement pk) request s).2 ≠ server_error e.
Proof.
  intros Hs.
  destruct (user request) as [u|] eqn:Hu; cycle 1.
  { unfold_views. by rewrite Hu. }
  destruct (board_advertisement s !! pk) as [ad|] eqn:Had; cycle 1.
  { unfold_views. rewrite Hu. unfold get_object_or_404. unfold_monad.
    by rewrite Had. }
  destruct (authors_have_profiles s Hs pk ad Had) as [p Hp].
  rewrite (handle_like_advertisement_eq s request u pk ad p) by done.
  by rewrite (handle_dislike_advertisement_eq s request u pk ad p).
Qed.

Lemma signup_no_server_error (s : DB) (request : HttpRequest) (e : exn) :
  consistent s → profiles_of_users s →
  (handle route_signup request s).2 ≠ server_error e.
Proof.
  intros Hs Hprof. unfold handle, respond, view_of, signup.
  destruct (is_POST request); [|done].
  destruct (POST_SignUpForm request); [|done].
  unfold User_create, UserProfile_create, UserProfile_save. unfold_monad. cbn.
  destruct (_ !! _) eqn:Hp; [|done]. cbn in Hp.
  assert (auth_user_seq s ∈ auth_user s) as Hin by (apply Hprof; eauto).
  pose proof (users_behind s Hs _ Hin). lia.
Qed.

(** X8: in a reachable database the views do not fail, with one
    exception: whatever the route and the request, a server error is
    the answer only to a detail request for a primary key that matches
    no advertisement.  The sign-up never meets an existing profile, the
    add view never a key in use, and the receivers always find the
    profile of the author. *)
Theorem only_detail_of_missing_row_fails
    (s : DB) (r : route) (request : HttpRequest) (e : exn) :
  reachable s →
  (handle r request s).2 = server_error e →
  ∃ pk, r = route_advertisement_detail pk
        ∧ board_advertisement s !! pk = None
        ∧ e = DoesNotExist "Advertisement".
Proof.
  intros Hreach Herr.
  apply reachable_consistent in Hreach as Hs.
  apply reachable_profiles_of_users in Hreach as Hprof.
  destruct r.
  - discriminate.
  - by apply signup_no_server_error in Herr.
  - discriminate.
  - unfold handle, respond, view_of, advertisement_list in Herr. unfold_monad.
    destruct (get_page_total (Advertisement_all s) 5 (GET_page request))
      as (pg & Hpg & _); [lia|].
    rewrite Hpg in Herr. discriminate.
  - exists pk.
    unfold handle, respond, view_of, advertisement_detail, Advertisement_get in Herr.
    unfold_monad. destruct (board_advertisement s !! pk); [discriminate|].
    cbn in Herr. by injection Herr as <-.
  - by apply add_advertisement_no_server_error in Herr.
  - by apply edit_advertisement_no_server_error in Herr.
  - by apply delete_advertisement_no_server_error in Herr.
  - by apply (reaction_no_server_error s request pk e) in Herr.
  - by apply (reaction_no_server_error s request pk e) in Herr.
Qed.

Lemma only_detail_of_missing_row_fails_witness :
  ∃ pk, route_advertisement_detail 7 = route_advertisement_detail pk
        ∧ board_advertisement two_users_one_advertisement !! pk = None
        ∧ DoesNotExist "Advertisement" = DoesNotExist "Advertisement".
Proof.
  apply (only_detail_of_missing_row_fails two_users_one_advertisement
           (route_advertisement_detail 7) (GET None) (DoesNotExist "Advertisement")).
  - apply reachable_two_users_one_advertisement.
  - vm_compute. reflexivity.
Defined.

(** ** The profile after an add *)

(** X9: in a reachable database, a POST of a user to the add view with
    a valid form adds one to the [advertisements_count] of that user,
    starting a profile at zero when the user has none, and leaves
    [total_likes] and [total_dislikes] alone: the new row has no
    reaction, so the two reaction receivers do nothing.  No other
    profile changes. *)
Theorem add_counts_one_advertisement
    (s : DB) (request : HttpRequest) (u : User) (form : AdvertisementForm.t) :
  reachable s →
  user request = Some u →
  is_POST request = true →
  POST_AdvertisementForm request = Some form →
  ∃ p',
    board_userprofile (handle route_add_advertisement request s).1
      = <[u := p']> (board_userprofile s)
    ∧ UserProfile.advertisements_count p'
        = UserProfile.advertisements_count
            (default UserProfile.default (board_userprofile s !! u)) + 1
    ∧ UserProfile.total_likes p'
        = UserProfile.total_likes
            (default UserProfile.default (board_userprofile s !! u))
    ∧ UserProfile.total_dislikes p'
        = UserProfile.total_dislikes
            (default UserProfile.default (board_userprofile s !! u)).
Proof.
  intros Hreach Hu Hpost Hform. apply reachable_consistent in Hreach as Hs.
  assert (board_advertisement s !! board_advertisement_seq s = None) as Hfresh.
  { destruct (board_advertisement s !! board_advertisement_seq s) eqn:Hx; [|done].
    pose proof (sequence_ahead s Hs _ (ltac:(eauto))). lia. }
  rewrite (handle_add_advertisement_eq s request u form) by done. cbn.
  eexists. split; [done|]. cbn. split_and!; repeat case_bool_decide; lia.
Qed.

Lemma add_counts_one_advertisement_witness :
  ∃ p',
    board_userprofile
      (handle route_add_advertisement (POST (Some 2%nat)) two_users_one_advertisement).1
      !! 2%nat = Some p'
    ∧ UserProfile.advertisements_count p' = 1.
Proof.
  destruct (add_counts_one_advertisement two_users_one_advertisement
              (POST (Some 2%nat)) 2%nat bike)
    as (p' & Hprofiles & Hcount & _).
  - apply reachable_two_users_one_advertisement.
  - reflexivity.
  - reflexivity.
  - reflexivity.
  - exists p'. rewrite Hprofiles, lookup_insert_eq. split; [done|].
    rewrite Hcount. vm_compute. reflexivity.
Defined.

(** ** What holds in every reachable database *)

(** X10: in every reachable database the author of an advertisement is
    a user that exists and has a profile, the [likes] and the
    [dislikes] of an advertisement are not negative, and every profile
    belongs to a user that exists. *)
Theorem reachable_rows_are_sound (s : DB) :
  reachable s →
  (∀ pk ad, board_advertisement s !! pk = Some ad →
     Advertisement.author ad ∈ auth_user s
     ∧ is_Some (board_userprofile s !! Advertisement.author ad)
     ∧ 0 ≤ Advertisement.likes ad
     ∧ 0 ≤ Advertisement.dislikes ad)
  ∧ (∀ u, is_Some (board_userprofile s !! u) → u ∈ auth_user s).
Proof.
  intros Hreach. split.
  - apply reachable_consistent in Hreach as Hs. intros pk ad Had.
    destruct (counters_not_negative s Hs pk ad Had).
    split_and!; try done.
    + by apply (authors_live s Hs pk).
    + by apply (authors_have_profiles s Hs pk).
  - by apply reachable_profiles_of_users.
Qed.

Lemma reachable_rows_are_sound_witness :
  is_Some (board_userprofile liked_once !! 1%nat) ∧ 1%nat ∈ auth_user liked_once.
Proof.
  destruct (reachable_rows_are_sound liked_once reachable_liked_once) as [Hrows _].
  destruct (Hrows 1%nat (Advertisement.mk "Bike" "Almost new" 1%nat 10 None 1 0))
    as (Hlive & Hp & _).
  - vm_compute. reflexivity.
  - split; [exact Hp | exact Hlive].
Defined.

(** ** Which page is shown *)

Lemma num_pages_bound {A} (l : list A) (per_page : Z) :
  0 < per_page →
  let last := Paginator.num_pages (Paginator.mk l per_page 0 true) in
  (last - 1) * per_page < Z.max 1 (Z.of_nat (length l)) ≤ last * per_page.
Proof.
  intros Hpp. unfold Paginator.num_pages, Paginator.count. cbn.
  rewrite andb_false_r, Z.sub_0_r.
  set (h := Z.max 1 (Z.of_nat (length l))).
  pose proof (Z.div_mod (- h) per_page ltac:(lia)) as Hdm.
  pose proof (Z.mod_pos_bound (- h) per_page Hpp) as Hmod.
  nia.
Qed.

(** A page that exists is the slice of [per_page] objects after those
    of the pages before it. *)
Lemma page_eq {A} (l : list A) (per_page n : Z) :
  0 < per_page →
  1 ≤ n ≤ Paginator.num_pages (Paginator.mk l per_page 0 true) →
  Paginator.page (Paginator.mk l per_page 0 true) n
    = inr (Paginator.mkPage
             (take (Z.to_nat per_page) (drop (Z.to_nat ((n - 1) * per_page)) l)) n).
Proof.
  intros Hpp Hn. pose proof (num_pages_bound l per_page Hpp) as Hbound. cbn in Hbound.
  unfold Paginator.page, Paginator.validate_number.
  destruct (Z.ltb_spec n 1); [lia|].
  destruct (Z.gtb_spec n (Paginator.num_pages (Paginator.mk l per_page 0 true))); [lia|].
  f_equal. f_equal. cbn. unfold Paginator.count. cbn.
  set (len := Z.of_nat (length l)) in *.
  set (bottom := (n - 1) * per_page).
  assert (0 ≤ bottom ≤ len) as Hbottom by (unfold bottom; nia).
  unfold slice. cbv zeta beta. fold len.
  destruct (Z.ltb_spec bottom 0); [lia|].
  rewrite (Z.min_l bottom len) by lia.
  destruct (Z.geb_spec (bottom + per_page + 0) len) as [Hge|Hlt].
  - destruct (Z.ltb_spec len 0); [lia|]. rewrite Z.min_id.
    rewrite !take_ge; [done| |]; rewrite length_drop; lia.
  - destruct (Z.ltb_spec (bottom + per_page) 0); [lia|].
    rewrite (Z.min_l (bottom + per_page) len) by lia.
    by replace (bottom + per_page - bottom) with per_page by lia.
Qed.

Lemma get_page_eq {A} (l : list A) (per_page : Z) (number : option Z) :
  0 < per_page →
  let p := Paginator.mk l per_page 0 true in
  let shown :=
    match number with
    | None => 1
    | Some n => if (n <? 1) || (n >? Paginator.num_pages p)
                then Paginator.num_pages p else n
    end in
  Paginator.get_page p number
    = inr (Paginator.mkPage
             (take (Z.to_nat per_page) (drop (Z.to_nat ((shown - 1) * per_page)) l))
             shown).
Proof.
  intros Hpp p shown. pose proof (num_pages_positive l per_page Hpp) as Hpos.
  fold p in Hpos. unfold Paginator.get_page, Paginator.validate_number, shown.
  destruct number as [n|]; [|by apply page_eq; [|fold p; lia]].
  destruct (Z.ltb_spec n 1); cbn [orb]; [by apply page_eq; [|fold p; lia]|].
  destruct (Z.gtb_spec n (Paginator.num_pages p)); apply page_eq; fold p; lia.
Qed.



(** X12: the pages cover the table, in the order of the primary keys:
    every advertisement of the table has a position in the list of all
    advertisements, and the advertisement at position [i] is shown by
    the request for page [i / 5 + 1], at position [i mod 5] of that
    page. *)
Theorem advertisement_list_pages_cover (s : DB) :
  (∀ pk ad, board_advertisement s !! pk = Some ad →
     ∃ i, Advertisement_all s !! i = Some (pk, ad))
  ∧ (∀ (i : nat) (row : nat * Advertisement.t) (request : HttpRequest),
       Advertisement_all s !! i = Some row →
       GET_page request = Some (Z.of_nat (i / 5) + 1) →
       ∃ page_obj,
         handle route_advertisement_list request s
           = (s, render "board/advertisement_list.html" (ctx_page_obj page_obj))
         ∧ page_obj !! (i mod 5)%nat = Some row).
Proof.
  split.
  - intros pk ad Had. apply list_elem_of_lookup. by apply elem_of_Advertisement_all.
  - intros i row request Hrow Hpage.
    set (advertisements := Advertisement_all s) in *.
    pose proof (num_pages_bound advertisements 5 ltac:(lia)) as Hbound. cbn in Hbound.
    pose proof (lookup_lt_Some _ _ _ Hrow) as Hlt.
    pose proof (Nat.div_mod_eq i 5) as Hdm.
    pose proof (Nat.mod_upper_bound i 5 ltac:(lia)) as Hmod.
    pose proof (get_page_eq advertisements 5 (GET_page request) ltac:(lia)) as Hget.
    cbn zeta in Hget. rewrite Hpage in Hget.
    destruct (Z.ltb_spec (Z.of_nat (i / 5) + 1) 1); [lia|].
    destruct (Z.gtb_spec (Z.of_nat (i / 5) + 1)
                (Paginator.num_pages (Paginator.mk advertisements 5 0 true))); [nia|].
    cbn [orb] in Hget. eexists. split.
    + unfold handle, respond, view_of, advertisement_list. unfold_monad.
      fold advertisements. by rewrite Hpage, Hget.
    + cbn [Paginator.page_object_list].
      rewrite lookup_take_lt by (change (Z.to_nat 5) with 5%nat; lia).
      rewrite lookup_drop, <- Hrow. f_equal. lia.
Qed.

(** Of seven advertisements the seventh, at position 6, is the second
    row of page 2. *)
Lemma advertisement_list_pages_cover_witness :
  let ad := Advertisement.mk "Bike" "Almost new" 1%nat 10 None 0 0 in
  ∃ page_obj,
    handle route_advertisement_list (mkRequest "GET" None (Some 2) None false 10)
      seven_advertisements
      = (seven_advertisements,
         render "board/advertisement_list.html" (ctx_page_obj page_obj))
    ∧ page_obj !! 1%nat = Some (7%nat, ad).
Proof.
  intros ad.
  destruct (advertisement_list_pages_cover seven_advertisements) as [_ Hcover].
  apply (Hcover 6%nat (7%nat, ad) (mkRequest "GET" None (Some 2) None false 10)).
  - vm_compute. reflexivity.
  - reflexivity.
Defined.

(** ** Sums over the advertisements of a user *)

Section sum_by_author.
Context (f : Advertisement.t → Z) (u : User).
Implicit Type m : gmap nat Advertisement.t.

#[local] Abbreviation sum_by_author m :=
  (map_fold (λ (_ : nat) (ad : Advertisement.t) (acc : Z), f ad + acc) 0
     (filter (λ ka : nat * Advertisement.t, Advertisement.author ka.2 = u) m)).

#[local] Abbreviation share ad :=
  (if decide (Advertisement.author ad = u) then f ad else 0).

Lemma sum_by_author_delete m pk ad :
  m !! pk = Some ad →
  sum_by_author m = share ad + sum_by_author (delete pk m).
Proof.
  intros Had. case_decide as Hu.
  - rewrite map_filter_delete.
    apply (map_fold_delete_L (λ _ ad acc, f ad + acc)); [intros; lia|].
    by apply map_lookup_filter_Some.
  - rewrite map_filter_delete_not; [done|]. intros y Hy. cbn. congruence.
Qed.

Lemma sum_by_author_insert_fresh m pk ad :
  m !! pk = None →
  sum_by_author (<[pk := ad]> m) = share ad + sum_by_author m.
Proof.
  intros Hfresh. rewrite map_filter_insert. cbn. case_decide as Hu.
  - apply (map_fold_insert_L (λ _ ad acc, f ad + acc)); [intros; lia|].
    apply map_lookup_filter_None. by left.
  - by rewrite delete_id.
Qed.

Lemma sum_by_author_replace m pk old ad :
  m !! pk = Some old →
  sum_by_author (<[pk := ad]> m) + share old = sum_by_author m + share ad.
Proof.
  intros Hold. rewrite <- (insert_delete_eq m).
  rewrite sum_by_author_insert_fresh by apply lookup_delete_eq.
  rewrite (sum_by_author_delete m pk old Hold). lia.
Qed.

Lemma sum_by_author_none m :
  (∀ pk ad, m !! pk = Some ad → Advertisement.author ad ≠ u) →
  sum_by_author m = 0.
Proof.
  intros Hnone.
  assert (filter (λ ka : nat * Advertisement.t, Advertisement.author ka.2 = u) m = ∅)
    as ->; [|by rewrite map_fold_empty].
  apply map_empty. intros k. apply map_lookup_filter_None. right.
  intros x Hx. cbn. by apply (Hnone k).
Qed.

End sum_by_author.

(** ** Reactions are counted at least twice *)

Lemma totals_cover_saved
    (s : DB) (pk : nat) (old ad : Advertisement.t) (p p' : UserProfile.t) :
  totals_cover s →
  board_advertisement s !! pk = Some old →
  Advertisement.author ad = Advertisement.author old →
  board_userprofile s !! Advertisement.author ad = Some p →
  UserProfile.total_likes p + 2 * (Advertisement.likes ad - Advertisement.likes old)
    ≤ UserProfile.total_likes p' →
  UserProfile.total_dislikes p
    + 2 * (Advertisement.dislikes ad - Advertisement.dislikes old)
    ≤ UserProfile.total_dislikes p' →
  totals_cover
    (mkDB (auth_user s) (auth_user_seq s)
       (<[pk := ad]> (board_advertisement s)) (board_advertisement_seq s)
       (board_comment s) (board_comment_seq s)
       (<[Advertisement.author ad := p']> (board_userprofile s))).
Proof.
  intros Hcover Hold Hsame Hp Hlikes Hdislikes u q Hq.
  unfold sum_over, advertisements_of. cbn in *.
  pose proof (sum_by_author_replace Advertisement.likes u _ pk old ad Hold) as Hl.
  pose proof (sum_by_author_replace Advertisement.dislikes u _ pk old ad Hold) as Hd.
  destruct (decide (Advertisement.author ad = u)) as [Hu|Hne].
  - rewrite Hu in Hq, Hp. rewrite lookup_insert_eq in Hq. injection Hq as <-.
    destruct (Hcover u p Hp) as [Hcl Hcd]. unfold sum_over, advertisements_of in *.
    rewrite !decide_True in Hl, Hd by congruence. lia.
  - rewrite lookup_insert_ne in Hq by done.
    destruct (Hcover u q Hq) as [Hcl Hcd]. unfold sum_over, advertisements_of in *.
    rewrite !decide_False in Hl, Hd by congruence. lia.
Qed.

Lemma totals_cover_added (s : DB) (seq' : nat) (ad : Advertisement.t) :
  consistent s →
  totals_cover s →
  Advertisement.likes ad = 0 →
  Advertisement.dislikes ad = 0 →
  totals_cover
    (mkDB (auth_user s) (auth_user_seq s)
       (<[board_advertisement_seq s := ad]> (board_advertisement s)) seq'
       (board_comment s) (board_comment_seq s)
       (<[Advertisement.author ad :=
            profile_after_save ad true
              (default UserProfile.default
                 (board_userprofile s !! Advertisement.author ad))]>
          (board_userprofile s))).
Proof.
  intros Hs Hcover Hl0 Hd0 u q Hq. unfold sum_over, advertisements_of. cbn in *.
  assert (board_advertisement s !! board_advertisement_seq s = None) as Hfresh.
  { destruct (board_advertisement s !! board_advertisement_seq s) eqn:Hx; [|done].
    pose proof (sequence_ahead s Hs _ (ltac:(eauto))). lia. }
  rewrite (sum_by_author_insert_fresh Advertisement.likes u _ _ ad Hfresh).
  rewrite (sum_by_author_insert_fresh Advertisement.dislikes u _ _ ad Hfresh).
  rewrite Hl0, Hd0.
  destruct (decide (Advertisement.author ad = u)) as [Hu|Hne].
  - rewrite Hu in Hq. rewrite lookup_insert_eq in Hq. injection Hq as <-. cbn.
    rewrite Hl0, Hd0. rewrite !bool_decide_eq_false_2 by lia.
    destruct (board_userprofile s !! u) as [p|] eqn:Hp; cbn.
    + destruct (Hcover u p Hp) as [Hcl Hcd]. unfold sum_over, advertisements_of in *.
      lia.
    + rewrite !sum_by_author_none; [lia| |].
      all: intros k x Hx Hau;
        destruct (authors_have_profiles s Hs k x Hx) as [p' Hp']; congruence.
  - rewrite lookup_insert_ne in Hq by done.
    destruct (Hcover u q Hq) as [Hcl Hcd]. unfold sum_over, advertisements_of in *. lia.
Qed.

Lemma totals_cover_deleted
    (s : DB) (pk : nat) (ad : Advertisement.t) (p : UserProfile.t) comments :
  consistent s →
  totals_cover s →
  board_advertisement s !! pk = Some ad →
  board_userprofile s !! Advertisement.author ad = Some p →
  totals_cover
    (mkDB (auth_user s) (auth_user_seq s)
       (delete pk (board_advertisement s)) (board_advertisement_seq s)
       comments (board_comment_seq s)
       (<[Advertisement.author ad :=
            UserProfile.set_advertisements_count p
              (UserProfile.advertisements_count p - 1)]>
          (board_userprofile s))).
Proof.
  intros Hs Hcover Had Hp u q Hq. unfold sum_over, advertisements_of. cbn in *.
  destruct (counters_not_negative s Hs pk ad Had) as [Hl0 Hd0].
  destruct (decide (Advertisement.author ad = u)) as [Hu|Hne].
  - pose proof (sum_by_author_delete Advertisement.likes u _ pk ad Had) as Hl.
    pose proof (sum_by_author_delete Advertisement.dislikes u _ pk ad Had) as Hd.
    rewrite Hu in Hq, Hp. rewrite lookup_insert_eq in Hq. injection Hq as <-. cbn.
    destruct (Hcover u p Hp) as [Hcl Hcd]. unfold sum_over, advertisements_of in *.
    rewrite !decide_True in Hl, Hd by congruence. lia.
  - pose proof (sum_by_author_delete Advertisement.likes u _ pk ad Had) as Hl.
    pose proof (sum_by_author_delete Advertisement.dislikes u _ pk ad Had) as Hd.
    rewrite lookup_insert_ne in Hq by done.
    destruct (Hcover u q Hq) as [Hcl Hcd]. unfold sum_over, advertisements_of in *.
    rewrite !decide_False in Hl, Hd by congruence. lia.
Qed.

Lemma totals_cover_without_user (s : DB) (u : User) :
  totals_cover s → totals_cover (without_user u s).
Proof.
  intros Hcover v q Hq. unfold sum_over, advertisements_of. cbn in *.
  apply lookup_delete_Some in Hq as [Hne Hq].
  rewrite by_author_without by done. by apply Hcover.
Qed.

Lemma signup_totals_cover (s : DB) (request : HttpRequest) :
  consistent s → totals_cover s → totals_cover (handle route_signup request s).1.
Proof.
  intros Hs Hcover. unfold handle, respond, view_of, signup.
  destruct (is_POST request); [|done].
  destruct (POST_SignUpForm request); [|done].
  unfold User_create, UserProfile_create, UserProfile_save. unfold_monad. cbn.
  destruct (_ !! _) eqn:Hp; [exact Hcover|].
  intros u q Hq. unfold sum_over, advertisements_of. cbn in *.
  destruct (decide (auth_user_seq s = u)) as [<-|Hne].
  - rewrite lookup_insert_eq in Hq. injection Hq as <-. cbn.
    rewrite !sum_by_author_none; [lia| |].
    all: intros k x Hx Hau; pose proof (authors_live s Hs k x Hx) as Hlive;
      pose proof (users_behind s Hs _ Hlive); lia.
  - rewrite lookup_insert_ne in Hq by done. by apply Hcover.
Qed.

Lemma handle_totals_cover (r : route) (request : HttpRequest) (s : DB) :
  consistent s → totals_cover s → totals_cover (handle r request s).1.
Proof.
  intros Hs Hcover. destruct r.
  - done.
  - by apply signup_totals_cover.
  - done.
  - by rewrite advertisement_list_unchanged.
  - by rewrite advertisement_detail_unchanged.
  - destruct (is_POST request) eqn:Hpost;
      [|by rewrite handle_add_advertisement_no_write by (by left)].
    destruct (POST_AdvertisementForm request) as [form|] eqn:Hform;
      [|by rewrite handle_add_advertisement_no_write by (by right)].
    destruct (user request) as [u|] eqn:Hu; cycle 1.
    { unfold_views. by rewrite Hu. }
    assert (board_advertisement s !! board_advertisement_seq s = None) as Hfresh.
    { destruct (board_advertisement s !! board_advertisement_seq s) eqn:Hx; [|done].
      pose proof (sequence_ahead s Hs _ (ltac:(eauto))). lia. }
    rewrite (handle_add_advertisement_eq s request u form) by done.
    by apply (totals_cover_added s _ (new_advertisement form u (now request))).
  - destruct (edit_advertisement_cases s request pk Hs)
      as [->|(form & ad & p & Had & Hp & ->)]; [done|].
    apply (totals_cover_saved s pk ad (construct_instance form ad) p); try done.
    + cbn. case_bool_decide; lia.
    + cbn. case_bool_decide; lia.
  - destruct (delete_advertisement_cases s request pk Hs)
      as [->|(ad & p & Had & Hp & ->)]; [done|].
    by apply totals_cover_deleted.
  - destruct (user request) as [u|] eqn:Hu; cycle 1.
    { unfold_views. by rewrite Hu. }
    destruct (board_advertisement s !! pk) as [ad|] eqn:Had; cycle 1.
    { unfold_views. rewrite Hu. unfold get_object_or_404. unfold_monad.
      by rewrite Had. }
    destruct (authors_have_profiles s Hs pk ad Had) as [p Hp].
    destruct (counters_not_negative s Hs pk ad Had) as [Hl Hd].
    rewrite (handle_like_advertisement_eq s request u pk ad p) by done.
    apply (totals_cover_saved s pk ad
             (Advertisement.set_likes ad (Advertisement.likes ad + 1)) p); try done.
    + cbn. rewrite bool_decide_eq_true_2 by lia. lia.
    + cbn. case_bool_decide; lia.
  - destruct (user request) as [u|] eqn:Hu; cycle 1.
    { unfold_views. by rewrite Hu. }
    destruct (board_advertisement s !! pk) as [ad|] eqn:Had; cycle 1.
    { unfold_views. rewrite Hu. unfold get_object_or_404. unfold_monad.
      by rewrite Had. }
    destruct (authors_have_profiles s Hs pk ad Had) as [p Hp].
    destruct (counters_not_negative s Hs pk ad Had) as [Hl Hd].
    rewrite (handle_dislike_advertisement_eq s request u pk ad p) by done.
    apply (totals_cover_saved s pk ad
             (Advertisement.set_dislikes ad (Advertisement.dislikes ad + 1)) p);
      try done.
    + cbn. case_bool_decide; lia.
    + cbn. rewrite bool_decide_eq_true_2 by lia. lia.
Qed.

(** X13: the reaction totals never fall short, and never agree either
    once there is a reaction: in every reachable database the
    [total_likes] of a profile is at least twice the sum of the [likes]
    of the advertisements of its user, and the same for
    [total_dislikes]; an edit or the other reaction adds to a total
    without a like, and a deleted advertisement leaves its likes in
    the total. *)
Theorem reachable_totals_cover (s : DB) : reachable s → totals_cover s.
Proof.
  intros Hreach.
  induction Hreach as [|a s Hreach IH Hallowed].
  - intros u p Hp. cbn in Hp. by rewrite lookup_empty in Hp.
  - apply reachable_consistent in Hreach as Hs. destruct a; cbn.
    + by apply handle_totals_cover.
    + unfold Comment_create. unfold_monad. cbn. by case_bool_decide.
    + rewrite User_delete_eq. case_bool_decide; cbn; [|done].
      by apply totals_cover_without_user.
Qed.

Lemma reachable_totals_cover_witness :
  2 * sum_over Advertisement.likes 1%nat liked_once
    ≤ UserProfile.total_likes (UserProfile.mk 1 2 0).
Proof.
  destruct (reachable_totals_cover liked_once reachable_liked_once 1%nat
              (UserProfile.mk 1 2 0)) as [Hlikes _].
  - vm_compute. reflexivity.
  - exact Hlikes.
Defined.

Lemma reachable_counts_match_witness :
  UserProfile.advertisements_count (UserProfile.mk 1 2 0)
    = Z.of_nat (size (advertisements_of 1%nat liked_once)).
Proof.
  apply (reachable_counts_match liked_once reachable_liked_once 1%nat).
  vm_compute. reflexivity.
Defined.

(** ** Editing an advertisement *)

(** X15: a request of the author to the edit view that is not a POST
    shows the edit page with the advertisement as it is stored, and a
    POST of the author whose form is not valid shows the edit page
    again; neither writes anything, in any database.  In a reachable
    database a POST of the author with a valid form is answered by the
    redirect to the detail page of the advertisement, and the saved
    row keeps its author, its creation time and both counters; the
    [advertisements_count] of the author is kept too. *)
Theorem edit_by_author
    (s : DB) (request : HttpRequest) (pk : nat) (ad : Advertisement.t) :
  user request = Some (Advertisement.author ad) →
  board_advertisement s !! pk = Some ad →
  (is_POST request = false →
   handle (route_edit_advertisement pk) request s
     = (s, render "board/edit_advertisement.html" (ctx_form_advertisement pk ad)))
  ∧ (is_POST request = true →
     POST_AdvertisementForm request = None →
     handle (route_edit_advertisement pk) request s
       = (s, render "board/edit_advertisement.html" (ctx_bound_form_advertisement pk)))
  ∧ (reachable s →
     is_POST request = true →
     is_Some (POST_AdvertisementForm request) →
     ∃ ad' p p',
       (handle (route_edit_advertisement pk) request s).2
         = redirect (url_advertisement_detail pk)
       ∧ board_advertisement (handle (route_edit_advertisement pk) request s).1 !! pk
           = Some ad'
       ∧ Advertisement.author ad' = Advertisement.author ad
       ∧ Advertisement.created_at ad' = Advertisement.created_at ad
       ∧ Advertisement.likes ad' = Advertisement.likes ad
       ∧ Advertisement.dislikes ad' = Advertisement.dislikes ad
       ∧ board_userprofile s !! Advertisement.author ad = Some p
       ∧ board_userprofile (handle (route_edit_advertisement pk) request s).1
           !! Advertisement.author ad = Some p'
       ∧ UserProfile.advertisements_count p' = UserProfile.advertisements_count p).
Proof.
  intros Hu Had. split_and!.
  - intros Hget. unfold_views. rewrite Hu.
    unfold get_object_or_404. unfold_monad. rewrite Had. cbn.
    rewrite bool_decide_eq_false_2 by (intros H; by apply H). by rewrite Hget.
  - intros Hpost Hinvalid. unfold_views. rewrite Hu.
    unfold get_object_or_404. unfold_monad. rewrite Had. cbn.
    rewrite bool_decide_eq_false_2 by (intros H; by apply H).
    by rewrite Hpost, Hinvalid.
  - intros Hreach Hpost [form Hform]. apply reachable_consistent in Hreach as Hs.
    destruct (authors_have_profiles s Hs pk ad Had) as [p Hp].
    rewrite (handle_edit_advertisement_eq s request pk form ad p) by done.
    cbn. rewrite !lookup_insert_eq. do 3 eexists.
    split_and!; try done. cbn. lia.
Qed.

(** On the advertisement of [liked_once], which has one like: the
    author's GET shows the stored row, a POST with a form that is not
    valid writes nothing, and a valid POST keeps the like. *)
Lemma edit_by_author_witness :
  let ad := Advertisement.mk "Bike" "Almost new" 1%nat 10 None 1 0 in
  handle (route_edit_advertisement 1) (GET (Some 1%nat)) liked_once
    = (liked_once,
       render "board/edit_advertisement.html" (ctx_form_advertisement 1 ad))
  ∧ handle (route_edit_advertisement 1)
      (mkRequest "POST" (Some 1%nat) None None false 10) liked_once
    = (liked_once,
       render "board/edit_advertisement.html" (ctx_bound_form_advertisement 1))
  ∧ ∃ ad',
      board_advertisement
        (handle (route_edit_advertisement 1) (POST (Some 1%nat)) liked_once).1 !! 1%nat
        = Some ad'
      ∧ Advertisement.likes ad' = 1.
Proof.
  intros ad.
  assert (board_advertisement liked_once !! 1%nat = Some ad) as Had
    by (vm_compute; reflexivity).
  destruct (edit_by_author liked_once (GET (Some 1%nat)) 1 ad eq_refl Had)
    as (Hget & _ & _).
  destruct (edit_by_author liked_once
              (mkRequest "POST" (Some 1%nat) None None false 10) 1 ad eq_refl Had)
    as (_ & Hinvalid & _).
  destruct (edit_by_author liked_once (POST (Some 1%nat)) 1 ad eq_refl Had)
    as (_ & _ & Hvalid).
  split; [apply Hget; reflexivity|].
  split; [apply Hinvalid; reflexivity|].
  destruct Hvalid as (ad' & p & p' & _ & Had' & _ & _ & Hlikes & _).
  - apply reachable_liked_once.
  - reflexivity.
  - by eexists.
  - exists ad'. split; [exact Had'|exact Hlikes].
Defined.
